(** * Static Website Optimizer Agent: the rule evaluation engine

    A shallow embedding of [analyzer.js] (the four checker groups
    [checkSEO], [checkAccessibility], [checkStructure], [checkPerformance])
    and of the concatenation step of [runAudit] in [app.js], followed by the
    properties of the engine.

    Conventions of the embedding.
    - A JavaScript string is a [string]; each [ascii] stands for one code
      unit below 256, so [String.length] is the [length] property on such
      strings.  The fixed texts of the issues are stored as written in the
      source file.
    - A count or a length is a [nat]; a value produced by [parseInt] is an
      [option Z], where [None] is [NaN].
    - The parsed document is a tree of nodes; an element is known by its
      local name, lower-cased as the HTML parser leaves it, and by its
      attribute list. *)

From Stdlib Require Import List String Ascii Bool Arith ZArith Lia.
From Stdlib Require Import Sorted Permutation DecimalString.
Import ListNotations.

Open Scope string_scope.
Open Scope nat_scope.
Open Scope list_scope.

(* ================================================================== *)
(** ** JavaScript string and number primitives used by the analyzer *)

Module JS.

(** The double quote character, for the issue texts that contain it. *)
Definition dq : string := String (ascii_of_nat 34) EmptyString.

(** A template literal [`a${b}c`] is the concatenation of its parts. *)
Definition template (parts : list string) : string := String.concat "" parts.

(** [String(n)] for a non-negative integer: its decimal digits. *)
Definition numberToString (n : nat) : string :=
  NilEmpty.string_of_uint (Nat.to_uint n).

(** WhiteSpace and LineTerminator code units below 256: TAB, LF, VT, FF, CR,
    SP and NBSP. *)
Definition isWhiteSpace (c : ascii) : bool :=
  let n := nat_of_ascii c in
  ((9 <=? n) && (n <=? 13)) || (n =? 32) || (n =? 160).

Fixpoint trimStart (s : string) : string :=
  match s with
  | EmptyString => EmptyString
  | String c r => if isWhiteSpace c then trimStart r else s
  end.

Fixpoint trimEnd (s : string) : string :=
  match s with
  | EmptyString => EmptyString
  | String c r =>
      let r' := trimEnd r in
      if isWhiteSpace c && (r' =? "")%string then EmptyString else String c r'
  end.

(** [String.prototype.trim] *)
Definition trim (s : string) : string := trimEnd (trimStart s).

(** Lower-case mapping of one code unit below 256: A-Z, and the Latin-1
    capitals 192-222 apart from the multiplication sign 215. *)
Definition lowerChar (c : ascii) : ascii :=
  let n := nat_of_ascii c in
  if ((65 <=? n) && (n <=? 90))
     || ((192 <=? n) && (n <=? 222) && negb (n =? 215))
  then ascii_of_nat (n + 32) else c.

(** ASCII upper-case mapping, as used for [tagName]. *)
Definition upperChar (c : ascii) : ascii :=
  let n := nat_of_ascii c in
  if (97 <=? n) && (n <=? 122) then ascii_of_nat (n - 32) else c.

Fixpoint mapString (f : ascii -> ascii) (s : string) : string :=
  match s with
  | EmptyString => EmptyString
  | String c r => String (f c) (mapString f r)
  end.

(** [String.prototype.toLowerCase] *)
Definition toLowerCase (s : string) : string := mapString lowerChar s.

(** ASCII upper-casing of a qualified name. *)
Definition asciiUpper (s : string) : string := mapString upperChar s.

(** [s.substring(1)] *)
Definition substring1 (s : string) : string :=
  match s with
  | EmptyString => EmptyString
  | String _ r => r
  end.

(** [a || ''] on strings: the empty string is falsy. *)
Definition orEmpty (s : string) : string :=
  if (s =? "")%string then "" else s.

(** [Array.prototype.includes] on an array of strings. *)
Definition includes (arr : list string) (x : string) : bool :=
  existsb (fun y => (y =? x)%string) arr.

(** [Array.prototype.push], returning the array. *)
Definition push {A : Type} (arr : list A) (x : A) : list A := arr ++ [x].

(** A number that may be [NaN]. *)
Definition number := option Z.

Definition digitValue (radix : Z) (c : ascii) : option Z :=
  let n := Z.of_nat (nat_of_ascii c) in
  let v :=
    (if (48 <=? n) && (n <=? 57) then Some (n - 48)
     else if (97 <=? n) && (n <=? 122) then Some (n - 87)
     else if (65 <=? n) && (n <=? 90) then Some (n - 55)
     else None)%Z in
  match v with
  | Some d => if (d <? radix)%Z then Some d else None
  | None => None
  end.

Fixpoint parseDigits (radix : Z) (acc : number) (s : string) : number :=
  match s with
  | EmptyString => acc
  | String c r =>
      match digitValue radix c with
      | Some d =>
          parseDigits radix
            (Some (match acc with Some a => a * radix + d | None => d end)%Z) r
      | None => acc
      end
  end.

(** [parseInt(s)] without a radix argument: leading white space is skipped,
    a sign is read, a [0x] prefix selects radix 16, and the longest prefix of
    digits is converted; no digit at all gives [NaN]. *)
Definition parseInt (s : string) : number :=
  let s := trimStart s in
  let '(sign, s) :=
    match s with
    | String c r =>
        if (c =? "-")%char then ((-1)%Z, r)
        else if (c =? "+")%char then (1%Z, r)
        else (1%Z, s)
    | EmptyString => (1%Z, s)
    end in
  let '(radix, s) :=
    match s with
    | String c0 (String c1 r) =>
        if (c0 =? "0")%char && ((c1 =? "x")%char || (c1 =? "X")%char)
        then (16%Z, r) else (10%Z, s)
    | _ => (10%Z, s)
    end in
  option_map (Z.mul sign) (parseDigits radix None s).

(** [a + 1] *)
Definition succ (a : number) : number := option_map (fun x => x + 1)%Z a.

(** [a > b]: false as soon as one side is [NaN]. *)
Definition gt (a b : number) : bool :=
  match a, b with
  | Some x, Some y => (y <? x)%Z
  | _, _ => false
  end.

End JS.

(* ================================================================== *)
(** ** The document tree *)

Module DOM.

#[local] Unset Elimination Schemes.
Inductive Node : Type :=
| Text (data : string)
| Comment (data : string)
| Element (localName : string) (attributes : list (string * string))
          (childNodes : list Node).
#[local] Set Elimination Schemes.

(** Induction over the tree, with the property available on every child. *)
Definition Node_tree_ind (P : Node -> Prop)
    (HText : forall data, P (Text data))
    (HComment : forall data, P (Comment data))
    (HElement : forall name attrs ch,
        Forall P ch -> P (Element name attrs ch)) : forall n, P n :=
  fix go (n : Node) : P n :=
    match n with
    | Text data => HText data
    | Comment data => HComment data
    | Element name attrs ch =>
        HElement name attrs ch
          ((fix all (l : list Node) : Forall P l :=
              match l with
              | [] => Forall_nil P
              | x :: r => Forall_cons x (go x) (all r)
              end) ch)
    end.

(** A document owns at most one element, its document element. *)
Record Document : Type := mkDocument { documentElement : option Node }.

Definition attributesOf (n : Node) : list (string * string) :=
  match n with
  | Element _ attrs _ => attrs
  | _ => []
  end.

Definition childNodesOf (n : Node) : list Node :=
  match n with
  | Element _ _ ch => ch
  | _ => []
  end.

Definition isElementNamed (name : string) (n : Node) : bool :=
  match n with
  | Element name' _ _ => (name' =? name)%string
  | _ => false
  end.

(** [el.getAttribute(name)] *)
Definition getAttribute (n : Node) (name : string) : option string :=
  option_map snd
    (find (fun kv => (fst kv =? name)%string) (attributesOf n)).

(** [el.hasAttribute(name)] *)
Definition hasAttribute (n : Node) (name : string) : bool :=
  existsb (fun kv => (fst kv =? name)%string) (attributesOf n).

(** [el.tagName] of an HTML element in an HTML document: the name in ASCII
    upper case. *)
Definition tagName (n : Node) : string :=
  match n with
  | Element name _ _ => JS.asciiUpper name
  | _ => ""
  end.

(** [node.textContent]: the data of a text node; for an element the
    concatenation of the data of its text descendants, in tree order. *)
Fixpoint textContent (n : Node) : string :=
  match n with
  | Text s => s
  | Comment _ => ""
  | Element _ _ ch => String.concat "" (map textContent ch)
  end.

(** The elements of the subtree of [n], [n] included, in tree order. *)
Fixpoint inclusiveElements (n : Node) : list Node :=
  match n with
  | Element _ _ ch => n :: flat_map inclusiveElements ch
  | _ => []
  end.

(** The element descendants of a node, in tree order. *)
Definition descendantElements (n : Node) : list Node :=
  flat_map inclusiveElements (childNodesOf n).

(** The element descendants of the document, in tree order. *)
Definition documentElements (doc : Document) : list Node :=
  match documentElement doc with
  | Some r => inclusiveElements r
  | None => []
  end.

(** [document.head]: the first [head] child of the [html] document element,
    or null. *)
Definition head (doc : Document) : option Node :=
  match documentElement doc with
  | Some (Element name _ ch) =>
      if (name =? "html")%string then find (isElementNamed "head") ch
      else None
  | _ => None
  end.

(** *** Selectors

    The selector strings of the analyzer, parsed: a selector list is a
    disjunction of compound selectors, a compound selector a conjunction of
    simple ones. *)

Inductive Simple : Type :=
| TypeSel (name : string)              (* [name] *)
| AttrSel (name : string)              (* [[name]] *)
| AttrEq (name value : string)         (* [[name="value"]] *)
| NotSel (s : Simple).                 (* [:not(s)] *)

Definition Compound := list Simple.
Definition Selector := list Compound.

(** Attributes whose values HTML compares ASCII case-insensitively in
    attribute selectors. *)
Definition caseInsensitiveAttributes : list string :=
  [ "accept"; "accept-charset"; "align"; "alink"; "axis"; "bgcolor";
    "charset"; "checked"; "clear"; "codetype"; "color"; "compact";
    "declare"; "defer"; "dir"; "direction"; "disabled"; "enctype"; "face";
    "frame"; "hreflang"; "http-equiv"; "lang"; "language"; "link"; "media";
    "method"; "multiple"; "nohref"; "noresize"; "noshade"; "nowrap";
    "readonly"; "rel"; "rev"; "rules"; "scope"; "scrolling"; "selected";
    "shape"; "target"; "text"; "type"; "valign"; "valuetype"; "vlink" ].

Definition attrValueEq (name v w : string) : bool :=
  if JS.includes caseInsensitiveAttributes name
  then (JS.asciiUpper v =? JS.asciiUpper w)%string
  else (v =? w)%string.

Fixpoint matchesSimple (s : Simple) (n : Node) : bool :=
  match s with
  | TypeSel name => isElementNamed name n
  | AttrSel name => hasAttribute n name
  | AttrEq name value =>
      match getAttribute n name with
      | Some v => attrValueEq name v value
      | None => false
      end
  | NotSel s' => negb (matchesSimple s' n)
  end.

Definition matches (sel : Selector) (n : Node) : bool :=
  existsb (fun c => forallb (fun s => matchesSimple s n) c) sel.

(** [doc.querySelectorAll(sel)] *)
Definition querySelectorAll (sel : Selector) (doc : Document) : list Node :=
  filter (matches sel) (documentElements doc).

(** [doc.querySelector(sel)]: the first match in tree order, or null. *)
Definition querySelector (sel : Selector) (doc : Document) : option Node :=
  List.hd_error (querySelectorAll sel doc).

(** [el.querySelectorAll(sel)]: matches among the descendants of [el]. *)
Definition elementQuerySelectorAll (sel : Selector) (el : Node) : list Node :=
  filter (matches sel) (descendantElements el).

(** [div.innerHTML = el.innerHTML; div.textContent]: the markup of the
    children of [el] is serialised and parsed again as a fragment, and the
    text of the result is read.  Serialising escapes the character data and
    parsing decodes it again, so on the parsed tree the text read is the
    text content of [el]. *)
Definition decodedText (el : Node) : string := textContent el.

End DOM.

(* ================================================================== *)
(** ** The analyzer *)

Module analyzer.

Import DOM.

Inductive Category : Type := SEO | Accessibility | Structure | Performance.

Inductive Severity : Type := error | warning | info.

Record Issue : Type := mkIssue {
  category : Category;
  severity : Severity;
  title : string;
  description : string;
  suggestion : string
}.

(** The selectors the analyzer queries with. *)
Definition sel_title : Selector := [[TypeSel "title"]].
Definition sel_meta_description : Selector :=
  [[TypeSel "meta"; AttrEq "name" "description"]].
Definition sel_meta_viewport : Selector :=
  [[TypeSel "meta"; AttrEq "name" "viewport"]].
Definition sel_link_canonical : Selector :=
  [[TypeSel "link"; AttrEq "rel" "canonical"]].
Definition sel_img : Selector := [[TypeSel "img"]].
Definition sel_a : Selector := [[TypeSel "a"]].
Definition sel_tag (tag : string) : Selector := [[TypeSel tag]].
Definition sel_h1 : Selector := [[TypeSel "h1"]].
Definition sel_headings : Selector :=
  [[TypeSel "h1"]; [TypeSel "h2"]; [TypeSel "h3"];
   [TypeSel "h4"]; [TypeSel "h5"]; [TypeSel "h6"]].
Definition sel_style : Selector := [[AttrSel "style"]].
Definition sel_inline_script : Selector :=
  [[TypeSel "script"; NotSel (AttrSel "src")]].
Definition sel_script_src : Selector := [[TypeSel "script"; AttrSel "src"]].

(** [list.forEach(x => { if (test(x)) counter++; })] from [counter = 0]. *)
Definition countEach (test : Node -> bool) (l : list Node) : nat :=
  fold_left (fun counter x => if test x then counter + 1 else counter) l 0.

(** *** SEO *)

Definition checkSEO (doc : Document) : list Issue :=
  let issues : list Issue := [] in
  let title := querySelector sel_title doc in
  let description := querySelector sel_meta_description doc in
  let viewport := querySelector sel_meta_viewport doc in
  let canonical := querySelector sel_link_canonical doc in
  (* Title Checks *)
  let issues :=
    match title with
    | None =>
        JS.push issues
          {| category := SEO; severity := error;
             title := "Missing <title> tag";
             description := "The document does not have a <title> element.";
             suggestion := "Add a <title> element to the <head> section." |}
    | Some title =>
        let titleText := JS.orEmpty (JS.trim (decodedText title)) in
        if String.length titleText <? 10 then
          JS.push issues
            {| category := SEO; severity := warning;
               title := "Title too short";
               description :=
                 JS.template ["Title is only ";
                              JS.numberToString (String.length titleText);
                              " characters long."];
               suggestion := "Expand your title to be descriptive (aim for 30-60 characters)." |}
        else if 70 <? String.length titleText then
          JS.push issues
            {| category := SEO; severity := warning;
               title := "Title too long";
               description :=
                 JS.template ["Title is ";
                              JS.numberToString (String.length titleText);
                              " characters long."];
               suggestion := "Shorten your title to ensure it displays fully in search results (max ~60-70 chars)." |}
        else issues
    end in
  (* Meta Description *)
  let issues :=
    match description with
    | None =>
        JS.push issues
          {| category := SEO; severity := error;
             title := "Missing Meta Description";
             description :=
               JS.template ["No <meta name="; JS.dq; "description"; JS.dq;
                            "> tag found."];
             suggestion := "Add a meta description to summarize your page for search engines." |}
    | Some _ => issues
    end in
  (* Viewport *)
  let issues :=
    match viewport with
    | None =>
        JS.push issues
          {| category := SEO; severity := error;
             title := "Missing Viewport Meta Tag";
             description :=
               JS.template ["No <meta name="; JS.dq; "viewport"; JS.dq;
                            "> tag found."];
             suggestion :=
               JS.template ["Add <meta name="; JS.dq; "viewport"; JS.dq;
                            " content="; JS.dq;
                            "width=device-width, initial-scale=1.0"; JS.dq;
                            "> for mobile responsiveness."] |}
    | Some _ => issues
    end in
  issues.

(** *** Accessibility *)

Definition genericTerms : list string :=
  ["click here"; "read more"; "more"; "link"; "here"].

Definition landmarks : list string :=
  ["main"; "nav"; "header"; "footer"; "aside"].

Definition checkAccessibility (doc : Document) : list Issue :=
  let issues : list Issue := [] in
  (* Image Alt Texts *)
  let images := querySelectorAll sel_img doc in
  let missingAltCount :=
    countEach (fun img => negb (hasAttribute img "alt")) images in
  let issues :=
    if 0 <? missingAltCount then
      JS.push issues
        {| category := Accessibility; severity := error;
           title := "Images missing Alt text";
           description :=
             JS.template ["Found "; JS.numberToString missingAltCount;
                          " <img> tag(s) without an alt attribute."];
           suggestion := "Add descriptive alt attributes to all images for screen readers." |}
    else issues in
  (* Generic Links *)
  let links := querySelectorAll sel_a doc in
  let genericLinkCount :=
    countEach
      (fun link =>
         let text := JS.toLowerCase (JS.trim (textContent link)) in
         JS.includes genericTerms text) links in
  let issues :=
    if 0 <? genericLinkCount then
      JS.push issues
        {| category := Accessibility; severity := warning;
           title := "Non-descriptive Link Text";
           description :=
             JS.template ["Found "; JS.numberToString genericLinkCount;
                          " link(s) satisfying generic text like "; JS.dq;
                          "click here"; JS.dq; "."];
           suggestion :=
             JS.template ["Use descriptive text for links that explains their destination (e.g., ";
                          JS.dq; "Read more about pricing"; JS.dq; ")."] |}
    else issues in
  (* Landmarks *)
  let foundLandmarks :=
    filter
      (fun tag =>
         match querySelector (sel_tag tag) doc with
         | Some _ => true
         | None => false
         end) landmarks in
  let issues :=
    if List.length foundLandmarks =? 0 then
      JS.push issues
        {| category := Accessibility; severity := info;
           title := "No Semantic Landmarks Found";
           description := "Document does not use <main>, <nav>, <header>, or <footer>.";
           suggestion := "Use semantic HTML5 landmark elements to improve navigation for screen readers." |}
    else issues in
  issues.

(** *** Structure *)

(** The linear scan over all headings: [true] when the loop leaves through
    its [break] with [skippedLevels] set, [false] when it runs to the end. *)
Fixpoint scanHeadings (previousLevel : JS.number) (allHeadings : list Node)
  : bool :=
  match allHeadings with
  | [] => false
  | heading :: rest =>
      let currentLevel := JS.parseInt (JS.substring1 (tagName heading)) in
      (* e.g., Prev H2, Current H4 (Skipped H3) *)
      if JS.gt currentLevel (JS.succ previousLevel) then true
      else scanHeadings currentLevel rest
  end.

Definition checkStructure (doc : Document) : list Issue :=
  let issues : list Issue := [] in
  (* H1 Checks *)
  let h1s := querySelectorAll sel_h1 doc in
  let issues :=
    if List.length h1s =? 0 then
      JS.push issues
        {| category := Structure; severity := error;
           title := "Missing H1 Heading";
           description := "No <h1> tag found on the page.";
           suggestion := "Add exactly one <h1> tag to describe the main topic of the page." |}
    else if 1 <? List.length h1s then
      JS.push issues
        {| category := Structure; severity := warning;
           title := "Multiple H1 Headings";
           description :=
             JS.template ["Found "; JS.numberToString (List.length h1s);
                          " <h1> tags."];
           suggestion := "Best practice is to have only one <h1> per page representing the main title." |}
    else issues in
  (* Heading Order *)
  let allHeadings := querySelectorAll sel_headings doc in
  let skippedLevels := scanHeadings (Some 0%Z) allHeadings in
  let issues :=
    if skippedLevels then
      JS.push issues
        {| category := Structure; severity := warning;
           title := "Skipped Heading Levels";
           description := "Heading levels should not be skipped (e.g., going from H2 to H4).";
           suggestion := "Ensure your heading hierarchy is sequential (e.g., H2 → H3)." |}
    else issues in
  (* Inline Styles *)
  let elementsWithStyle := querySelectorAll sel_style doc in
  let issues :=
    if 10 <? List.length elementsWithStyle then
      JS.push issues
        {| category := Structure; severity := info;
           title := "Heavy use of Inline Styles";
           description :=
             JS.template ["Found ";
                          JS.numberToString (List.length elementsWithStyle);
                          " elements with inline 'style' attributes."];
           suggestion := "Move styles to valid CSS classes or an external stylesheet for better maintainability." |}
    else issues in
  issues.

(** *** Performance *)

Definition checkPerformance (doc : Document) : list Issue :=
  let issues : list Issue := [] in
  (* Image Count *)
  let images := querySelectorAll sel_img doc in
  let issues :=
    if 30 <? List.length images then
      JS.push issues
        {| category := Performance; severity := warning;
           title := "High Image Count";
           description :=
             JS.template ["Page contains ";
                          JS.numberToString (List.length images);
                          " images."];
           suggestion := "Lazy load images and consider if all are necessary for the initial view." |}
    else issues in
  (* Large Inline Scripts *)
  let scripts := querySelectorAll sel_inline_script doc in
  let largeScripts :=
    countEach
      (fun script => 2000 <? String.length (textContent script)) scripts in
  let issues :=
    if 0 <? largeScripts then
      JS.push issues
        {| category := Performance; severity := info;
           title := "Large Inline Scripts";
           description :=
             JS.template ["Found "; JS.numberToString largeScripts;
                          " large inline script block(s)."];
           suggestion := "Move large JavaScript logic to external .js files to take advantage of browser caching." |}
    else issues in
  (* Blocking Resources in Head *)
  let headScripts :=
    match head doc with
    | Some h => elementQuerySelectorAll sel_script_src h
    | None => []
    end in
  let blockingScripts :=
    countEach
      (fun script =>
         negb (hasAttribute script "async")
         && negb (hasAttribute script "defer")) headScripts in
  let issues :=
    if 0 <? blockingScripts then
      JS.push issues
        {| category := Performance; severity := warning;
           title := "Render-blocking Scripts";
           description :=
             JS.template ["Found "; JS.numberToString blockingScripts;
                          " script(s) in <head> that are not async or defer."];
           suggestion :=
             JS.template ["Add "; JS.dq; "defer"; JS.dq; " or "; JS.dq;
                          "async"; JS.dq;
                          " attributes to scripts in the <head> to prevent blocking page render."] |}
    else issues in
  issues.

(** *** Compiling the report ([runAudit], step 6)

    The four groups run in this order on the parsed document and their
    results are spread into one array. *)
Definition allIssues (doc : Document) : list Issue :=
  let seoIssues := checkSEO doc in
  let a11yIssues := checkAccessibility doc in
  let structureIssues := checkStructure doc in
  let perfIssues := checkPerformance doc in
  seoIssues ++ a11yIssues ++ structureIssues ++ perfIssues.

End analyzer.

(* ================================================================== *)
(** ** The rules, one by one

    Each rule of a group is described by the issues it adds, as a function
    of what it measures on the document; the lemmas [checkSEO_rules],
    [checkAccessibility_rules], [checkStructure_rules] and
    [checkPerformance_rules] show that a group function returns the issues
    of its rules one after the other. *)

Module Rules.

Import DOM analyzer.

(** *** What the rules measure *)

Definition titleLength (t : Node) : nat :=
  String.length (JS.trim (decodedText t)).

Definition isMeta (name : string) (e : Node) : bool :=
  isElementNamed "meta" e &&
  match getAttribute e "name" with
  | Some v => (v =? name)%string
  | None => false
  end.

Definition lacksAlt (e : Node) : bool :=
  isElementNamed "img" e && negb (hasAttribute e "alt").

Definition normalizedText (e : Node) : string :=
  JS.toLowerCase (JS.trim (textContent e)).

Definition isGenericLink (e : Node) : bool :=
  isElementNamed "a" e &&
  existsb (fun term => (term =? normalizedText e)%string) genericTerms.

Definition isLandmark (e : Node) : bool :=
  existsb (fun tag => isElementNamed tag e) landmarks.

Definition isStyled (e : Node) : bool := hasAttribute e "style".

Definition isLargeInlineScript (e : Node) : bool :=
  isElementNamed "script" e && negb (hasAttribute e "src")
  && (2000 <? String.length (textContent e)).

Definition isBlockingScript (e : Node) : bool :=
  isElementNamed "script" e && hasAttribute e "src"
  && negb (hasAttribute e "async") && negb (hasAttribute e "defer").

(** The level a heading element carries in its name. *)
Definition headingLevel (e : Node) : option Z :=
  match e with
  | Element name _ _ =>
      if (name =? "h1")%string then Some 1%Z
      else if (name =? "h2")%string then Some 2%Z
      else if (name =? "h3")%string then Some 3%Z
      else if (name =? "h4")%string then Some 4%Z
      else if (name =? "h5")%string then Some 5%Z
      else if (name =? "h6")%string then Some 6%Z
      else None
  | _ => None
  end.

(** The levels of the headings of a list of elements, in the same order. *)
Fixpoint levelsOf (l : list Node) : list Z :=
  match l with
  | [] => []
  | e :: r =>
      match headingLevel e with
      | Some k => k :: levelsOf r
      | None => levelsOf r
      end
  end.

Definition count (p : Node -> bool) (doc : Document) : nat :=
  List.length (filter p (documentElements doc)).

Definition h1Count : Document -> nat := count (isElementNamed "h1").
Definition imgCount : Document -> nat := count (isElementNamed "img").
Definition missingAltCount : Document -> nat := count lacksAlt.
Definition genericLinkCount : Document -> nat := count isGenericLink.
Definition styledCount : Document -> nat := count isStyled.
Definition largeScriptCount : Document -> nat := count isLargeInlineScript.

(** The heading levels of the document, in tree order. *)
Definition headingLevels (doc : Document) : list Z :=
  levelsOf (documentElements doc).

(** The render-blocking scripts: those below [document.head]. *)
Definition blockingScripts (doc : Document) : list Node :=
  match head doc with
  | Some h => filter isBlockingScript (descendantElements h)
  | None => []
  end.

(** A skip: some heading lies more than one level below the heading before
    it, the level before the first heading being 0. *)
Definition hasSkip (levels : list Z) : Prop :=
  exists pre cur post,
    levels = pre ++ cur :: post /\ (last pre 0 + 1 < cur)%Z.

Fixpoint hasSkipFrom (prev : Z) (levels : list Z) : bool :=
  match levels with
  | [] => false
  | cur :: r => (prev + 1 <? cur)%Z || hasSkipFrom cur r
  end.

(** *** The issues *)

Definition issue_missing_title : Issue :=
  {| category := SEO; severity := error;
     title := "Missing <title> tag";
     description := "The document does not have a <title> element.";
     suggestion := "Add a <title> element to the <head> section." |}.

Definition issue_title_too_short (L : nat) : Issue :=
  {| category := SEO; severity := warning;
     title := "Title too short";
     description :=
       ("Title is only " ++ JS.numberToString L ++ " characters long.")%string;
     suggestion := "Expand your title to be descriptive (aim for 30-60 characters)." |}.

Definition issue_title_too_long (L : nat) : Issue :=
  {| category := SEO; severity := warning;
     title := "Title too long";
     description :=
       ("Title is " ++ JS.numberToString L ++ " characters long.")%string;
     suggestion := "Shorten your title to ensure it displays fully in search results (max ~60-70 chars)." |}.

Definition issue_missing_description : Issue :=
  {| category := SEO; severity := error;
     title := "Missing Meta Description";
     description :=
       ("No <meta name=" ++ JS.dq ++ "description" ++ JS.dq
        ++ "> tag found.")%string;
     suggestion := "Add a meta description to summarize your page for search engines." |}.

Definition issue_missing_viewport : Issue :=
  {| category := SEO; severity := error;
     title := "Missing Viewport Meta Tag";
     description :=
       ("No <meta name=" ++ JS.dq ++ "viewport" ++ JS.dq
        ++ "> tag found.")%string;
     suggestion :=
       ("Add <meta name=" ++ JS.dq ++ "viewport" ++ JS.dq ++ " content="
        ++ JS.dq ++ "width=device-width, initial-scale=1.0" ++ JS.dq
        ++ "> for mobile responsiveness.")%string |}.

Definition issue_missing_alt (n : nat) : Issue :=
  {| category := Accessibility; severity := error;
     title := "Images missing Alt text";
     description :=
       ("Found " ++ JS.numberToString n
        ++ " <img> tag(s) without an alt attribute.")%string;
     suggestion := "Add descriptive alt attributes to all images for screen readers." |}.

Definition issue_generic_links (n : nat) : Issue :=
  {| category := Accessibility; severity := warning;
     title := "Non-descriptive Link Text";
     description :=
       ("Found " ++ JS.numberToString n
        ++ " link(s) satisfying generic text like " ++ JS.dq ++ "click here"
        ++ JS.dq ++ ".")%string;
     suggestion :=
       ("Use descriptive text for links that explains their destination (e.g., "
        ++ JS.dq ++ "Read more about pricing" ++ JS.dq ++ ").")%string |}.

Definition issue_no_landmarks : Issue :=
  {| category := Accessibility; severity := info;
     title := "No Semantic Landmarks Found";
     description := "Document does not use <main>, <nav>, <header>, or <footer>.";
     suggestion := "Use semantic HTML5 landmark elements to improve navigation for screen readers." |}.

Definition issue_missing_h1 : Issue :=
  {| category := Structure; severity := error;
     title := "Missing H1 Heading";
     description := "No <h1> tag found on the page.";
     suggestion := "Add exactly one <h1> tag to describe the main topic of the page." |}.

Definition issue_multiple_h1 (n : nat) : Issue :=
  {| category := Structure; severity := warning;
     title := "Multiple H1 Headings";
     description := ("Found " ++ JS.numberToString n ++ " <h1> tags.")%string;
     suggestion := "Best practice is to have only one <h1> per page representing the main title." |}.

Definition issue_skipped_levels : Issue :=
  {| category := Structure; severity := warning;
     title := "Skipped Heading Levels";
     description := "Heading levels should not be skipped (e.g., going from H2 to H4).";
     suggestion := "Ensure your heading hierarchy is sequential (e.g., H2 → H3)." |}.

Definition issue_inline_styles (n : nat) : Issue :=
  {| category := Structure; severity := info;
     title := "Heavy use of Inline Styles";
     description :=
       ("Found " ++ JS.numberToString n
        ++ " elements with inline 'style' attributes.")%string;
     suggestion := "Move styles to valid CSS classes or an external stylesheet for better maintainability." |}.

Definition issue_high_image_count (n : nat) : Issue :=
  {| category := Performance; severity := warning;
     title := "High Image Count";
     description :=
       ("Page contains " ++ JS.numberToString n ++ " images.")%string;
     suggestion := "Lazy load images and consider if all are necessary for the initial view." |}.

Definition issue_large_scripts (n : nat) : Issue :=
  {| category := Performance; severity := info;
     title := "Large Inline Scripts";
     description :=
       ("Found " ++ JS.numberToString n
        ++ " large inline script block(s).")%string;
     suggestion := "Move large JavaScript logic to external .js files to take advantage of browser caching." |}.

Definition issue_blocking_scripts (n : nat) : Issue :=
  {| category := Performance; severity := warning;
     title := "Render-blocking Scripts";
     description :=
       ("Found " ++ JS.numberToString n
        ++ " script(s) in <head> that are not async or defer.")%string;
     suggestion :=
       ("Add " ++ JS.dq ++ "defer" ++ JS.dq ++ " or " ++ JS.dq ++ "async"
        ++ JS.dq
        ++ " attributes to scripts in the <head> to prevent blocking page render.")%string |}.

(** *** The issues each rule adds *)

Definition titleRule (t : option Node) : list Issue :=
  match t with
  | None => [issue_missing_title]
  | Some t =>
      if titleLength t <? 10 then [issue_title_too_short (titleLength t)]
      else if 70 <? titleLength t then [issue_title_too_long (titleLength t)]
      else []
  end.

Definition unless (found : bool) (i : Issue) : list Issue :=
  if found then [] else [i].

Definition whenPositive (n : nat) (i : nat -> Issue) : list Issue :=
  if 0 <? n then [i n] else [].

Definition whenAbove (bound n : nat) (i : nat -> Issue) : list Issue :=
  if bound <? n then [i n] else [].

Definition h1Rule (n : nat) : list Issue :=
  if n =? 0 then [issue_missing_h1]
  else if 1 <? n then [issue_multiple_h1 n]
  else [].

Definition skipRule (skipped : bool) : list Issue :=
  if skipped then [issue_skipped_levels] else [].

(** The issues of a list that carry one of the given titles. *)
Definition issuesTitled (titles : list string) (l : list Issue) : list Issue :=
  filter (fun i => JS.includes titles (title i)) l.

End Rules.

(* ================================================================== *)
(** ** Sample documents *)

Module Samples.

Import DOM analyzer Rules.

(** The tree the HTML parser builds for a page with the given contents of
    [head] and [body]. *)
Definition page (headContent bodyContent : list Node) : Document :=
  mkDocument
    (Some (Element "html" []
             [Element "head" [] headContent; Element "body" [] bodyContent])).

(** [<html><head></head><body></body></html>] *)
Definition minimalDocument : Document := page [] [].

Definition titleNode (text : string) : Node :=
  Element "title" [] [Text text].

(** A page whose [title] holds the given text. *)
Definition titledPage (text : string) : Document :=
  page [titleNode text] [].

Definition longTitle : string :=
  "An extremely long page title that keeps going well past what a search result can show".

(** A page whose body is a run of headings with the given tag names. *)
Definition headingsPage (tags : list string) : Document :=
  page [] (map (fun tag => Element tag [] [Text "Section"]) tags).

(** Headings at different depths of the tree: an [h1] inside a [div],
    then an [h2] inside a [section] inside an [article]. *)
Definition nestedHeadingsPage : Document :=
  page []
    [Element "div" [] [Element "h1" [] [Text "Top"]];
     Element "article" []
       [Element "section" [] [Element "h2" [] [Text "Part"]]]].

(** Three images; the second has an empty [alt], the others none. *)
Definition threeImagesPage : Document :=
  page []
    [Element "img" [("src", "a.png")] [];
     Element "img" [("src", "b.png"); ("alt", "")] [];
     Element "img" [("src", "c.png")] []].

(** A page whose images all have an [alt]. *)
Definition describedImagesPage : Document :=
  page [] [Element "img" [("src", "a.png"); ("alt", "A")] []].

Definition link (text : string) : Node :=
  Element "a" [("href", "/pricing")] [Text text].

(** Two links: "Click here " and "click here now". *)
Definition linksPage : Document :=
  page [] [link "Click here "; link "click here now"].

Definition descriptiveLinksPage : Document :=
  page [] [link "Read more about pricing"].

(** A page with [n] elements that carry an empty [style] attribute. *)
Definition styledPage (n : nat) : Document :=
  page [] (repeat (Element "div" [("style", "")] []) n).

Definition script (attrs : list (string * string)) : Node :=
  Element "script" attrs [].

(** One blocking script in [head], next to an [async] and a [defer] one. *)
Definition blockingHeadPage : Document :=
  page [script [("src", "a.js")];
        script [("src", "b.js"); ("async", "")];
        script [("src", "c.js"); ("defer", "")]] [].

(** Only [async] and [defer] scripts in [head]; a plain one in [body]. *)
Definition blockingBodyPage : Document :=
  page [script [("src", "b.js"); ("async", "")]]
       [script [("src", "a.js")]].

(** A document without a [head]: its document element is an [svg]. *)
Definition headlessDocument : Document :=
  mkDocument (Some (Element "svg" [] [script [("src", "a.js")]])).

(** A page with issues in every group: no title, description or viewport,
    an image without [alt] and no landmark, no [h1] and a first heading
    [h2], a blocking script in [head]. *)
Definition busyPage : Document :=
  page [script [("src", "a.js")]]
       [Element "img" [("src", "a.png")] []; Element "h2" [] [Text "News"]].

End Samples.

(* ================================================================== *)
(** ** The issues of one rule within a result *)

Module Views.

Import DOM analyzer Rules.

Definition titleTitles : list string :=
  ["Missing <title> tag"; "Title too short"; "Title too long"].
Definition h1Titles : list string :=
  ["Missing H1 Heading"; "Multiple H1 Headings"].
Definition skipTitles : list string := ["Skipped Heading Levels"].
Definition altTitles : list string := ["Images missing Alt text"].
Definition linkTitles : list string := ["Non-descriptive Link Text"].
Definition styleTitles : list string := ["Heavy use of Inline Styles"].
Definition blockingTitles : list string := ["Render-blocking Scripts"].

Definition titleIssues (doc : Document) : list Issue :=
  issuesTitled titleTitles (checkSEO doc).
Definition altIssues (doc : Document) : list Issue :=
  issuesTitled altTitles (checkAccessibility doc).
Definition linkIssues (doc : Document) : list Issue :=
  issuesTitled linkTitles (checkAccessibility doc).
Definition h1Issues (doc : Document) : list Issue :=
  issuesTitled h1Titles (checkStructure doc).
Definition skipIssues (doc : Document) : list Issue :=
  issuesTitled skipTitles (checkStructure doc).
Definition styleIssues (doc : Document) : list Issue :=
  issuesTitled styleTitles (checkStructure doc).
Definition blockingIssues (doc : Document) : list Issue :=
  issuesTitled blockingTitles (checkPerformance doc).

(** The first [title] element of the document, in tree order. *)
Definition titleElement (doc : Document) : option Node :=
  find (isElementNamed "title") (documentElements doc).

(** The place of each rule in the enumeration of the rules: 1 to 3 for the
    SEO group, 4 to 6 for Accessibility, 7 to 9 for Structure, 10 to 12 for
    Performance.  An issue is known by its title. *)
Definition ruleTable : list (string * nat) :=
  [ ("Missing <title> tag", 1); ("Title too short", 1); ("Title too long", 1);
    ("Missing Meta Description", 2);
    ("Missing Viewport Meta Tag", 3);
    ("Images missing Alt text", 4);
    ("Non-descriptive Link Text", 5);
    ("No Semantic Landmarks Found", 6);
    ("Missing H1 Heading", 7); ("Multiple H1 Headings", 7);
    ("Skipped Heading Levels", 8);
    ("Heavy use of Inline Styles", 9);
    ("High Image Count", 10);
    ("Large Inline Scripts", 11);
    ("Render-blocking Scripts", 12) ].

Definition ruleNumber (i : Issue) : nat :=
  match find (fun entry => (fst entry =? title i)%string) ruleTable with
  | Some entry => snd entry
  | None => 0
  end.

(** Rule numbers within the given bounds and increasing. *)
Definition ranked (lo hi : nat) (l : list Issue) : Prop :=
  Forall (fun i => lo <= ruleNumber i <= hi) l
  /\ StronglySorted lt (map ruleNumber l).

(** A group: all issues of one category, rule numbers within the bounds of
    the group and increasing. *)
Definition groupOf (c : Category) (lo hi : nat) (l : list Issue) : Prop :=
  Forall (fun i => category i = c) l /\ ranked lo hi l.

End Views.

(* ================================================================== *)
(** ** Documents that differ in their canonical link elements *)

Module Canonical.

Import DOM analyzer Rules Samples.

Definition isVoid (n : Node) : bool :=
  match n with
  | Element _ _ [] => true
  | _ => false
  end.

(** A canonical link element: an element that [link[rel="canonical"]]
    selects.  [link] is a void element, the parser gives it no children. *)
Definition isCanonicalLink (n : Node) : bool :=
  matches sel_link_canonical n && isVoid n.

(** A canonical link element that carries no [style] attribute. *)
Definition isPlainCanonicalLink (n : Node) : bool :=
  isCanonicalLink n && negb (hasAttribute n "style").

(** The subtree of [n] with the descendants chosen by [drop] taken out. *)
Fixpoint without (drop : Node -> bool) (n : Node) : Node :=
  match n with
  | Element name attrs ch =>
      Element name attrs
        (flat_map (fun c => if drop c then [] else [without drop c]) ch)
  | _ => n
  end.

Definition withoutInDocument (drop : Node -> bool) (doc : Document)
  : Document :=
  mkDocument (option_map (without drop) (documentElement doc)).

(** Two documents differ only in the presence or the content of the
    elements chosen by [drop]: taking these out of both leaves the same
    document. *)
Definition differOnlyIn (drop : Node -> bool) (d1 d2 : Document) : Prop :=
  withoutInDocument drop d1 = withoutInDocument drop d2.

(** What a rule reads of an element, as a list; [elementsRead] gathers it
    over the elements of a document. *)
Definition elementsRead {X : Type} (g : Node -> list X) (doc : Document)
  : list X :=
  flat_map g (documentElements doc).

(** A reading [g] that [drop] cannot disturb: it sees neither the elements
    taken out nor the children of an element. *)
Definition blindTo {X : Type} (drop : Node -> bool) (g : Node -> list X)
  : Prop :=
  (forall n, drop n = true -> g n = [])
  /\ (forall n, g (without drop n) = g n).

(** A filter followed by a map is such a reading. *)
Definition reading {X : Type} (p : Node -> bool) (f : Node -> X) (n : Node)
  : list X :=
  if p n then [f n] else [].

Definition canonicalLink (attrs : list (string * string)) : Node :=
  Element "link" (("rel", "canonical") :: attrs) [].

Definition tenStyled : list Node :=
  repeat (Element "p" [("style", "margin:0")] []) 10.

(** Ten styled paragraphs, and no canonical link. *)
Definition tenStyledPage : Document := page [] tenStyled.

(** The same page with a canonical link that carries a [style] attribute. *)
Definition tenStyledCanonicalPage : Document :=
  page [canonicalLink [("href", "https://example.org/"); ("style", "")]]
       tenStyled.

(** The same page with canonical links without [style], one of them in the
    body between the paragraphs. *)
Definition tenStyledPlainCanonicalPage : Document :=
  page [canonicalLink [("href", "https://example.org/")]]
       (canonicalLink [("href", "https://example.org/b")] :: tenStyled).

(** The same page, the canonical link written with another value of
    [href] and of [rel]. *)
Definition tenStyledOtherCanonicalPage : Document :=
  page [Element "link" [("href", "https://example.com/"); ("rel", "Canonical")] []]
       tenStyled.

End Canonical.

(* ================================================================== *)
(** ** The page controller ([app.js])

    The page is the state the controller reads and writes: the widgets it
    looks up by id, the timeline, the issues container, the [isProcessing]
    flag, and the alerts shown.  Console output, scrolling and the pauses
    between the steps of an audit are not part of the state. *)

Module app.

Import analyzer.

(** *** Class lists *)

(** [classList.add(...tokens)]: each token is appended unless present.  A
    class list is an ordered set of tokens, kept here as a list. *)
Definition classList_add (tokens : list string) (cl : list string)
  : list string :=
  fold_left (fun cl t => if JS.includes cl t then cl else cl ++ [t]) tokens cl.

(** [classList.remove(...tokens)] *)
Definition classList_remove (tokens : list string) (cl : list string)
  : list string :=
  filter (fun c => negb (JS.includes tokens c)) cl.

(** [classList.contains(token)] *)
Definition classList_contains (cl : list string) (token : string) : bool :=
  JS.includes cl token.

(** *** Widgets *)

Record Widget : Type := mkWidget {
  classList : list string;
  textContent : string;
  value : string;
  disabled : bool
}.

Definition addClass (tokens : list string) (w : Widget) : Widget :=
  mkWidget (classList_add tokens (classList w)) (textContent w) (value w)
           (disabled w).

Definition removeClass (tokens : list string) (w : Widget) : Widget :=
  mkWidget (classList_remove tokens (classList w)) (textContent w) (value w)
           (disabled w).

Definition setTextContent (s : string) (w : Widget) : Widget :=
  mkWidget (classList w) s (value w) (disabled w).

Definition setValue (s : string) (w : Widget) : Widget :=
  mkWidget (classList w) (textContent w) s (disabled w).

Definition setDisabled (b : bool) (w : Widget) : Widget :=
  mkWidget (classList w) (textContent w) (value w) b.

(** A widget is shown when it does not carry the class [hidden]. *)
Definition shown (w : Widget) : bool :=
  negb (classList_contains (classList w) "hidden").

(** *** The timeline *)

(** One [div] of the timeline: its [data-text], its classes, and the
    classes and text of its [span]. *)
Record TimelineItem : Type := mkTimelineItem {
  dataset_text : string;
  className : list string;
  spanClassList : list string;
  spanText : string
}.

(** *** The issues container *)

Record Card : Type := mkCard {
  cardBorder : string;
  cardTitle : string;
  cardBadge : string;
  cardSeverity : string;
  cardDescription : string;
  cardSuggestion : string
}.

(** A section of the report: the category and the count of its heading,
    and its cards. *)
Record ReportSection : Type := mkReportSection {
  sectionCategory : Category;
  sectionCount : nat;
  sectionCards : list Card
}.

(** The children of the issues container: the "Amazing Job!" panel when it
    is there, then the sections. *)
Record Container : Type := mkContainer {
  celebration : bool;
  sections : list ReportSection
}.

(** *** The page *)

Record Page : Type := mkPage {
  urlInput : Widget;
  fetchBtn : Widget;
  htmlInput : Widget;
  runBtn : Widget;
  fetchError : Widget;
  resultsPlaceholder : Widget;
  processingView : Widget;
  resultsView : Widget;
  timeline : list TimelineItem;
  issuesContainer : Container;
  isProcessing : bool;
  alerts : list string
}.

Definition with_fetchBtn (f : Widget -> Widget) (p : Page) : Page :=
  mkPage (urlInput p) (f (fetchBtn p)) (htmlInput p) (runBtn p)
    (fetchError p) (resultsPlaceholder p) (processingView p) (resultsView p)
    (timeline p) (issuesContainer p) (isProcessing p) (alerts p).

Definition with_htmlInput (f : Widget -> Widget) (p : Page) : Page :=
  mkPage (urlInput p) (fetchBtn p) (f (htmlInput p)) (runBtn p)
    (fetchError p) (resultsPlaceholder p) (processingView p) (resultsView p)
    (timeline p) (issuesContainer p) (isProcessing p) (alerts p).

Definition with_runBtn (f : Widget -> Widget) (p : Page) : Page :=
  mkPage (urlInput p) (fetchBtn p) (htmlInput p) (f (runBtn p))
    (fetchError p) (resultsPlaceholder p) (processingView p) (resultsView p)
    (timeline p) (issuesContainer p) (isProcessing p) (alerts p).

Definition with_fetchError (f : Widget -> Widget) (p : Page) : Page :=
  mkPage (urlInput p) (fetchBtn p) (htmlInput p) (runBtn p)
    (f (fetchError p)) (resultsPlaceholder p) (processingView p)
    (resultsView p) (timeline p) (issuesContainer p) (isProcessing p)
    (alerts p).

Definition with_resultsPlaceholder (f : Widget -> Widget) (p : Page) : Page :=
  mkPage (urlInput p) (fetchBtn p) (htmlInput p) (runBtn p)
    (fetchError p) (f (resultsPlaceholder p)) (processingView p)
    (resultsView p) (timeline p) (issuesContainer p) (isProcessing p)
    (alerts p).

Definition with_processingView (f : Widget -> Widget) (p : Page) : Page :=
  mkPage (urlInput p) (fetchBtn p) (htmlInput p) (runBtn p)
    (fetchError p) (resultsPlaceholder p) (f (processingView p))
    (resultsView p) (timeline p) (issuesContainer p) (isProcessing p)
    (alerts p).

Definition with_resultsView (f : Widget -> Widget) (p : Page) : Page :=
  mkPage (urlInput p) (fetchBtn p) (htmlInput p) (runBtn p)
    (fetchError p) (resultsPlaceholder p) (processingView p)
    (f (resultsView p)) (timeline p) (issuesContainer p) (isProcessing p)
    (alerts p).

Definition with_timeline (f : list TimelineItem -> list TimelineItem)
    (p : Page) : Page :=
  mkPage (urlInput p) (fetchBtn p) (htmlInput p) (runBtn p)
    (fetchError p) (resultsPlaceholder p) (processingView p) (resultsView p)
    (f (timeline p)) (issuesContainer p) (isProcessing p) (alerts p).

Definition with_issuesContainer (f : Container -> Container) (p : Page)
  : Page :=
  mkPage (urlInput p) (fetchBtn p) (htmlInput p) (runBtn p)
    (fetchError p) (resultsPlaceholder p) (processingView p) (resultsView p)
    (timeline p) (f (issuesContainer p)) (isProcessing p) (alerts p).

Definition set_isProcessing (b : bool) (p : Page) : Page :=
  mkPage (urlInput p) (fetchBtn p) (htmlInput p) (runBtn p)
    (fetchError p) (resultsPlaceholder p) (processingView p) (resultsView p)
    (timeline p) (issuesContainer p) b (alerts p).

(** [alert(message)] *)
Definition alert (message : string) (p : Page) : Page :=
  mkPage (urlInput p) (fetchBtn p) (htmlInput p) (runBtn p)
    (fetchError p) (resultsPlaceholder p) (processingView p) (resultsView p)
    (timeline p) (issuesContainer p) (isProcessing p)
    (JS.push (alerts p) message).

(** *** [handleFetchUrl] *)

(** What [fetch(url)] and [response.text()] come to: the request is
    rejected, or a response arrives with its [ok] flag and, when its body
    can be read, the text. *)
Inductive FetchOutcome : Type :=
| Rejected
| Response (ok : bool) (text : option string).

Definition handleFetchUrl (fetch : string -> FetchOutcome) (p : Page)
  : Page :=
  let url := JS.trim (value (urlInput p)) in
  if (url =? "")%string then p
  else
    let p := with_fetchBtn (setDisabled true) p in
    let p := with_fetchBtn (setTextContent "Fetching...") p in
    let p := with_fetchError (addClass ["hidden"]) p in
    let p :=
      match fetch url with
      | Response true (Some text) => with_htmlInput (setValue text) p
      | _ =>
          let p :=
            with_fetchError
              (setTextContent
                 "Could not fetch URL (likely CORS). Please paste HTML manually.")
              p in
          with_fetchError (removeClass ["hidden"]) p
      end in
    (* finally *)
    let p := with_fetchBtn (setDisabled false) p in
    with_fetchBtn (setTextContent "Fetch HTML") p.

(** The text of the error line after a fetch that failed. *)
Definition fetchFailedText : string :=
  "Could not fetch URL (likely CORS). Please paste HTML manually.".

(** *** [startProcessing], [resetView] *)

Definition startProcessing (p : Page) : Page :=
  let p := set_isProcessing true p in
  let p := with_resultsPlaceholder (addClass ["hidden"]) p in
  let p := with_resultsView (addClass ["hidden"]) p in
  let p := with_processingView (removeClass ["hidden"]) p in
  let p := with_timeline (fun _ => []) p in
  let p := with_runBtn (setDisabled true) p in
  with_runBtn (addClass ["opacity-75"; "cursor-not-allowed"]) p.

Definition resetView (p : Page) : Page :=
  let p := with_processingView (addClass ["hidden"]) p in
  let p := with_resultsView (addClass ["hidden"]) p in
  let p := with_resultsPlaceholder (removeClass ["hidden"]) p in
  let p := with_runBtn (setDisabled false) p in
  with_runBtn (removeClass ["opacity-75"; "cursor-not-allowed"]) p.

(** *** [updateTimeline] *)

(** The item a first call for [text] appends. *)
Definition createItem (text : string) : TimelineItem :=
  {| dataset_text := text;
     className := ["timeline-item"; "active"];
     spanClassList := ["text-slate-700"; "font-medium"];
     spanText := text |}.

(** What [status === 1] does to the item found. *)
Definition completeItem (item : TimelineItem) : TimelineItem :=
  {| dataset_text := dataset_text item;
     className :=
       classList_add ["completed"]
         (classList_remove ["active"] (className item));
     spanClassList := classList_add ["text-green-700"] (spanClassList item);
     spanText := spanText item |}.

(** The list with its first element that satisfies [test] changed by [f]:
    [find] returns that element and the code mutates it in place. *)
Fixpoint changeFirst {A : Type} (test : A -> bool) (f : A -> A) (l : list A)
  : list A :=
  match l with
  | [] => []
  | x :: r => if test x then f x :: r else x :: changeFirst test f r
  end.

Definition updateTimelineItems (text : string) (status : nat)
    (children : list TimelineItem) : list TimelineItem :=
  let existingItem :=
    find (fun child => (dataset_text child =? text)%string) children in
  match existingItem with
  | None => children ++ [createItem text]
  | Some _ =>
      if status =? 1 then
        changeFirst (fun child => (dataset_text child =? text)%string)
          completeItem children
      else children
  end.

Definition updateTimeline (text : string) (status : nat) (p : Page) : Page :=
  with_timeline (updateTimelineItems text status) p.

(** *** [renderResults] *)

Definition severityString (s : Severity) : string :=
  match s with
  | error => "error"
  | warning => "warning"
  | info => "info"
  end.

Definition getSeverityColor (severity : string) : string :=
  if (severity =? "error")%string then "border-l-red-500"
  else if (severity =? "warning")%string then "border-l-amber-500"
  else "border-l-blue-500".

Definition getSeverityBadge (severity : string) : string :=
  if (severity =? "error")%string then "bg-red-100 text-red-700"
  else if (severity =? "warning")%string then "bg-amber-100 text-amber-800"
  else "bg-blue-100 text-blue-700".

Definition category_eqb (a b : Category) : bool :=
  match a, b with
  | SEO, SEO | Accessibility, Accessibility
  | Structure, Structure | Performance, Performance => true
  | _, _ => false
  end.

Definition categories : list Category :=
  [SEO; Accessibility; Structure; Performance].

(** The card built for one issue. *)
Definition renderCard (issue : Issue) : Card :=
  {| cardBorder := getSeverityColor (severityString (severity issue));
     cardTitle := title issue;
     cardBadge := getSeverityBadge (severityString (severity issue));
     cardSeverity := severityString (severity issue);
     cardDescription := description issue;
     cardSuggestion := suggestion issue |}.

Definition appendSection (s : ReportSection) (c : Container) : Container :=
  mkContainer (celebration c) (sections c ++ [s]).

Definition renderResults (issues : list Issue) (p : Page) : Page :=
  let p := with_processingView (addClass ["hidden"]) p in
  let p := with_resultsView (removeClass ["hidden"]) p in
  let p := with_runBtn (setDisabled false) p in
  let p := with_runBtn (removeClass ["opacity-75"; "cursor-not-allowed"]) p in
  let p := set_isProcessing false p in
  let p := with_issuesContainer (fun _ => mkContainer false []) p in
  if List.length issues =? 0 then
    with_issuesContainer (fun _ => mkContainer true []) p
  else
    (* Group by Category *)
    fold_left
      (fun p cat =>
         let catIssues :=
           filter (fun i => category_eqb (category i) cat) issues in
         if 0 <? List.length catIssues then
           with_issuesContainer
             (appendSection
                {| sectionCategory := cat;
                   sectionCount := List.length catIssues;
                   sectionCards := map renderCard catIssues |}) p
         else p)
      categories p.

(** *** [runAudit]

    [parseHtml] is the parser of the browser; [None] stands for a parse
    that throws. *)
Definition runAudit (parseHtml : string -> option DOM.Document) (p : Page)
  : Page :=
  let html := JS.trim (value (htmlInput p)) in
  if (html =? "")%string then
    alert "Please provide some HTML to analyze." p
  else
    let p := startProcessing p in
    (* 1. Parse HTML *)
    let p := updateTimeline "Parsing HTML Structure..." 0 p in
    match parseHtml html with
    | None =>
        let p := alert "Failed to parse HTML." p in
        resetView p
    | Some doc =>
        let p := updateTimeline "Parsing HTML Structure..." 1 p in
        (* 2. SEO Checks *)
        let p := updateTimeline "Running SEO Analysis..." 0 p in
        let seoIssues := checkSEO doc in
        let p := updateTimeline "Running SEO Analysis..." 1 p in
        (* 3. Accessibility Checks *)
        let p := updateTimeline "Checking Accessibility..." 0 p in
        let a11yIssues := checkAccessibility doc in
        let p := updateTimeline "Checking Accessibility..." 1 p in
        (* 4. Structure Checks *)
        let p := updateTimeline "Reviewing HTML Structure..." 0 p in
        let structureIssues := checkStructure doc in
        let p := updateTimeline "Reviewing HTML Structure..." 1 p in
        (* 5. Performance Checks *)
        let p := updateTimeline "Scanning for Performance..." 0 p in
        let perfIssues := checkPerformance doc in
        let p := updateTimeline "Scanning for Performance..." 1 p in
        (* 6. Compile Results *)
        let p := updateTimeline "Compiling Report..." 0 p in
        let allIssues :=
          seoIssues ++ a11yIssues ++ structureIssues ++ perfIssues in
        renderResults allIssues p
    end.

(** *** Sample pages *)

Definition plainWidget : Widget := mkWidget [] "" "" false.

(** A sample page: only the placeholder is shown, the fields are empty. *)
Definition freshPage : Page :=
  {| urlInput := plainWidget;
     fetchBtn := setTextContent "Fetch HTML" plainWidget;
     htmlInput := plainWidget;
     runBtn := setTextContent "Run Audit" plainWidget;
     fetchError := addClass ["hidden"] plainWidget;
     resultsPlaceholder := plainWidget;
     processingView := addClass ["hidden"] plainWidget;
     resultsView := addClass ["hidden"] plainWidget;
     timeline := [];
     issuesContainer := mkContainer false [];
     isProcessing := false;
     alerts := [] |}.

Definition typeHtml (html : string) (p : Page) : Page :=
  with_htmlInput (setValue html) p.

Definition typeUrl (url : string) (p : Page) : Page :=
  mkPage (setValue url (urlInput p)) (fetchBtn p) (htmlInput p) (runBtn p)
    (fetchError p) (resultsPlaceholder p) (processingView p) (resultsView p)
    (timeline p) (issuesContainer p) (isProcessing p) (alerts p).

(** A parser for the samples: it knows one page. *)
Definition sampleParser (html : string) : option DOM.Document :=
  if (html =? "<h2>News</h2><img src=a.png>")%string
  then Some Samples.busyPage else None.

(** A network for the samples: one address answers, one answers with an
    error status, the others are unreachable. *)
Definition sampleFetch (url : string) : FetchOutcome :=
  if (url =? "https://example.org/")%string
  then Response true (Some "<h2>News</h2><img src=a.png>")
  else if (url =? "https://example.org/missing")%string
  then Response false (Some "Not found")
  else Rejected.

(** *** Reading the report *)

(** All the cards of the container, section after section. *)
Definition allCards (c : Container) : list Card :=
  flat_map sectionCards (sections c).

(** The place of a category in [categories]. *)
Definition categoryRank (c : Category) : nat :=
  match c with
  | SEO => 0
  | Accessibility => 1
  | Structure => 2
  | Performance => 3
  end.

(** The issues of one category, in the order of the list. *)
Definition ofCategory (cat : Category) (issues : list Issue) : list Issue :=
  filter (fun i => category_eqb (category i) cat) issues.

(** The section of one category, when the category has issues. *)
Definition sectionOf (cat : Category) (issues : list Issue)
  : list ReportSection :=
  if 0 <? List.length (ofCategory cat issues) then
    [ {| sectionCategory := cat;
         sectionCount := List.length (ofCategory cat issues);
         sectionCards := map renderCard (ofCategory cat issues) |} ]
  else [].

(** The report of a list of issues: the panel when there is none, the
    sections of the categories otherwise. *)
Definition report (issues : list Issue) : Container :=
  if List.length issues =? 0 then mkContainer true []
  else mkContainer false (flat_map (fun cat => sectionOf cat issues) categories).

(** Exactly one of the three views is shown, and it is the given one. *)
Inductive View : Type := PlaceholderView | ProcessingView | ResultsView.

Definition onlyShown (v : View) (p : Page) : Prop :=
  shown (resultsPlaceholder p)
  = match v with PlaceholderView => true | _ => false end
  /\ shown (processingView p)
     = match v with ProcessingView => true | _ => false end
  /\ shown (resultsView p)
     = match v with ResultsView => true | _ => false end.

(** The timeline item of a step: the first one with the given text. *)
Definition itemFor (text : string) (children : list TimelineItem)
  : option TimelineItem :=
  find (fun child => (dataset_text child =? text)%string) children.

(** The timeline at the end of an audit that ran through: the five
    analysis steps completed, the last step still active. *)
Definition finishedTimeline : list TimelineItem :=
  map (fun text => completeItem (createItem text))
    ["Parsing HTML Structure..."; "Running SEO Analysis...";
     "Checking Accessibility..."; "Reviewing HTML Structure...";
     "Scanning for Performance..."]
  ++ [createItem "Compiling Report..."].

(** The text and the classes of each timeline item. *)
Definition timelineSummary (p : Page) : list (string * list string) :=
  map (fun item => (dataset_text item, className item)) (timeline p).

End app.

(* ================================================================== *)
(** ** More sample documents *)

Module MoreSamples.

Import DOM analyzer Rules Samples.

(** A string of [n] times the character [c]. *)
Fixpoint stringOf (n : nat) (c : ascii) : string :=
  match n with
  | O => EmptyString
  | S k => String c (stringOf k c)
  end.

(** A string made of white space only. *)
Fixpoint blankString (s : string) : bool :=
  match s with
  | EmptyString => true
  | String c r => JS.isWhiteSpace c && blankString r
  end.

(** A page with [n] images, all with an [alt]. *)
Definition imagesPage (n : nat) : Document :=
  page [] (repeat (Element "img" [("src", "a.png"); ("alt", "A")] []) n).

(** A page with an inline script of [n] characters and an external script
    that holds as many. *)
Definition scriptsPage (n : nat) : Document :=
  page []
    [Element "script" [] [Text (stringOf n "x")];
     Element "script" [("src", "a.js"); ("defer", "")]
       [Text (stringOf n "x")]].

(** A page with a description and a viewport in [head]. *)
Definition describedPage : Document :=
  page [Element "meta" [("name", "description"); ("content", "")] [];
        Element "meta" [("name", "viewport")] []] [].

(** A page whose only landmark is an [aside] deep in the body. *)
Definition asidePage : Document :=
  page [] [Element "div" [] [Element "aside" [] [Text "Related"]]].

End MoreSamples.

(* ================================================================== *)
(** ** Facts about the primitives *)

Section Primitives.

Import DOM analyzer Rules.

Lemma orEmpty_id (s : string) : JS.orEmpty s = s.
Proof. destruct s; reflexivity. Qed.

Lemma countEach_from (test : Node -> bool) (l : list Node) (acc : nat) :
  fold_left (fun counter x => if test x then counter + 1 else counter) l acc
  = acc + List.length (filter test l).
Proof.
  revert acc; induction l as [|x l IH]; intros acc; simpl.
  - lia.
  - rewrite IH. destruct (test x); simpl; lia.
Qed.

Lemma countEach_length (test : Node -> bool) (l : list Node) :
  countEach test l = List.length (filter test l).
Proof. unfold countEach. now rewrite countEach_from. Qed.

Lemma filter_filter {A : Type} (p q : A -> bool) (l : list A) :
  filter p (filter q l) = filter (fun x => q x && p x) l.
Proof.
  induction l as [|x l IH]; simpl; [reflexivity|].
  destruct (q x); simpl; [destruct (p x)|]; now rewrite IH.
Qed.

Lemma hd_error_filter {A : Type} (p : A -> bool) (l : list A) :
  match hd_error (filter p l) with Some _ => true | None => false end
  = existsb p l.
Proof.
  induction l as [|x l IH]; simpl; [reflexivity|].
  destruct (p x); simpl; [reflexivity | exact IH].
Qed.

Lemma filter_none_length {A : Type} (p : A -> bool) (l : list A) :
  (List.length (filter p l) =? 0) = negb (existsb p l).
Proof.
  induction l as [|x l IH]; simpl; [reflexivity|].
  destruct (p x); simpl; [reflexivity | exact IH].
Qed.

Lemma existsb_orb {A : Type} (f g : A -> bool) (l : list A) :
  existsb (fun x => f x || g x) l = existsb f l || existsb g l.
Proof.
  induction l as [|x l IH]; simpl; [reflexivity|].
  rewrite IH. destruct (f x), (g x), (existsb f l); reflexivity.
Qed.

Lemma existsb_ext {A : Type} (f g : A -> bool) (l : list A) :
  (forall x, f x = g x) -> existsb f l = existsb g l.
Proof.
  intros H. induction l as [|x l IH]; simpl; [reflexivity|].
  now rewrite H, IH.
Qed.

Lemma existsb_false {A : Type} (l : list A) :
  existsb (fun _ => false) l = false.
Proof. induction l; simpl; auto. Qed.

Lemma existsb_swap {A B : Type} (f : A -> B -> bool) (la : list A)
    (lb : list B) :
  existsb (fun a => existsb (f a) lb) la
  = existsb (fun b => existsb (fun a => f a b) la) lb.
Proof.
  induction la as [|a la IH]; simpl.
  - now rewrite existsb_false.
  - now rewrite existsb_orb, IH.
Qed.

(** *** Selectors, read as predicates on elements *)

Lemma matches_tag (name : string) (e : Node) :
  matches (sel_tag name) e = isElementNamed name e.
Proof.
  unfold matches, sel_tag; simpl.
  now rewrite andb_true_r, orb_false_r.
Qed.

Lemma matches_style (e : Node) : matches sel_style e = isStyled e.
Proof.
  unfold matches, sel_style, isStyled; simpl.
  now rewrite andb_true_r, orb_false_r.
Qed.

Lemma matches_inline_script (e : Node) :
  matches sel_inline_script e
  = isElementNamed "script" e && negb (hasAttribute e "src").
Proof.
  unfold matches, sel_inline_script; simpl.
  now rewrite andb_true_r, orb_false_r.
Qed.

Lemma matches_script_src (e : Node) :
  matches sel_script_src e
  = isElementNamed "script" e && hasAttribute e "src".
Proof.
  unfold matches, sel_script_src; simpl.
  now rewrite andb_true_r, orb_false_r.
Qed.

Lemma matches_meta (name : string) (e : Node) :
  matches [[TypeSel "meta"; AttrEq "name" name]] e = isMeta name e.
Proof.
  unfold matches, isMeta; simpl.
  rewrite andb_true_r, orb_false_r.
  destruct (getAttribute e "name"); reflexivity.
Qed.

Lemma querySelectorAll_tag (name : string) (doc : Document) :
  List.length (querySelectorAll (sel_tag name) doc)
  = count (isElementNamed name) doc.
Proof.
  unfold querySelectorAll, count. f_equal.
  apply filter_ext. intros e. apply matches_tag.
Qed.

End Primitives.

(* ================================================================== *)
(** ** Each group returns the issues of its rules, in order *)

Section Groups.

Import DOM analyzer Rules.

Lemma checkSEO_rules (doc : Document) :
  checkSEO doc
  = titleRule (querySelector sel_title doc)
    ++ unless (existsb (isMeta "description") (documentElements doc))
         issue_missing_description
    ++ unless (existsb (isMeta "viewport") (documentElements doc))
         issue_missing_viewport.
Proof.
  assert (Hq : forall name,
    match querySelector [[TypeSel "meta"; AttrEq "name" name]] doc with
    | Some _ => true | None => false end
    = existsb (isMeta name) (documentElements doc)).
  { intros name. unfold querySelector, querySelectorAll.
    rewrite hd_error_filter. apply existsb_ext. intros e.
    apply matches_meta. }
  unfold checkSEO, titleRule, titleLength.
  fold sel_meta_description sel_meta_viewport.
  rewrite <- (Hq "description"), <- (Hq "viewport").
  fold sel_meta_description sel_meta_viewport.
  destruct (querySelector sel_title doc) as [t|];
    destruct (querySelector sel_meta_description doc);
    destruct (querySelector sel_meta_viewport doc);
    try rewrite orEmpty_id;
    try destruct (String.length (JS.trim (decodedText t)) <? 10);
    try destruct (70 <? String.length (JS.trim (decodedText t)));
    reflexivity.
Qed.

Lemma landmarks_found (doc : Document) :
  (List.length
     (filter
        (fun tag =>
           match querySelector (sel_tag tag) doc with
           | Some _ => true
           | None => false
           end) landmarks) =? 0)
  = negb (existsb isLandmark (documentElements doc)).
Proof.
  rewrite filter_none_length. f_equal.
  unfold isLandmark.
  rewrite <- (existsb_swap (fun tag e => isElementNamed tag e)).
  apply existsb_ext. intros tag.
  unfold querySelector, querySelectorAll. rewrite hd_error_filter.
  apply existsb_ext. intros e. apply matches_tag.
Qed.

Lemma checkAccessibility_rules (doc : Document) :
  checkAccessibility doc
  = whenPositive (missingAltCount doc) issue_missing_alt
    ++ whenPositive (genericLinkCount doc) issue_generic_links
    ++ unless (existsb isLandmark (documentElements doc)) issue_no_landmarks.
Proof.
  unfold checkAccessibility. rewrite landmarks_found.
  rewrite !countEach_length.
  unfold querySelectorAll. rewrite !filter_filter.
  assert (Ha : filter (fun x => matches sel_img x && negb (hasAttribute x "alt"))
                 (documentElements doc)
               = filter lacksAlt (documentElements doc)).
  { apply filter_ext. intros e. unfold lacksAlt, sel_img.
    now rewrite (matches_tag "img"). }
  assert (Hl : filter
                 (fun x => matches sel_a x &&
                    JS.includes genericTerms
                      (JS.toLowerCase (JS.trim (textContent x))))
                 (documentElements doc)
               = filter isGenericLink (documentElements doc)).
  { apply filter_ext. intros e. unfold isGenericLink, sel_a.
    now rewrite (matches_tag "a"). }
  rewrite Ha, Hl.
  unfold whenPositive, unless, missingAltCount, genericLinkCount, count.
  destruct (0 <? List.length (filter lacksAlt (documentElements doc)));
    destruct (0 <? List.length (filter isGenericLink (documentElements doc)));
    destruct (existsb isLandmark (documentElements doc));
    reflexivity.
Qed.

(** The value [parseInt] reads in the tag name of a heading is its level. *)
Lemma heading_parseInt (e : Node) :
  matches sel_headings e = true ->
  exists k, headingLevel e = Some k
            /\ JS.parseInt (JS.substring1 (tagName e)) = Some k.
Proof.
  destruct e as [d|d|name attrs ch]; try discriminate.
  unfold matches, sel_headings; simpl.
  repeat rewrite andb_true_r. rewrite orb_false_r.
  destruct (name =? "h1")%string eqn:E1;
    [apply String.eqb_eq in E1; subst; intros _; now eexists|].
  destruct (name =? "h2")%string eqn:E2;
    [apply String.eqb_eq in E2; subst; intros _; now eexists|].
  destruct (name =? "h3")%string eqn:E3;
    [apply String.eqb_eq in E3; subst; intros _; now eexists|].
  destruct (name =? "h4")%string eqn:E4;
    [apply String.eqb_eq in E4; subst; intros _; now eexists|].
  destruct (name =? "h5")%string eqn:E5;
    [apply String.eqb_eq in E5; subst; intros _; now eexists|].
  destruct (name =? "h6")%string eqn:E6;
    [apply String.eqb_eq in E6; subst; intros _; now eexists|].
  discriminate.
Qed.

Lemma not_heading (e : Node) :
  matches sel_headings e = false -> headingLevel e = None.
Proof.
  destruct e as [d|d|name attrs ch]; try reflexivity.
  unfold matches, sel_headings; simpl.
  repeat rewrite andb_true_r. rewrite orb_false_r.
  destruct (name =? "h1")%string; [discriminate|].
  destruct (name =? "h2")%string; [discriminate|].
  destruct (name =? "h3")%string; [discriminate|].
  destruct (name =? "h4")%string; [discriminate|].
  destruct (name =? "h5")%string; [discriminate|].
  destruct (name =? "h6")%string; [discriminate|].
  reflexivity.
Qed.

Lemma scanHeadings_levels (els : list Node) (prev : Z) :
  scanHeadings (Some prev) (filter (matches sel_headings) els)
  = hasSkipFrom prev (levelsOf els).
Proof.
  revert prev; induction els as [|e els IH]; intros prev; [reflexivity|].
  cbn [filter levelsOf].
  destruct (matches sel_headings e) eqn:Em.
  - destruct (heading_parseInt e Em) as (k & Hk & Hp).
    rewrite Hk. cbn [scanHeadings hasSkipFrom]. rewrite Hp.
    cbn [JS.gt JS.succ option_map].
    destruct (prev + 1 <? k)%Z; [reflexivity | apply IH].
  - rewrite (not_heading e Em). apply IH.
Qed.

Lemma checkStructure_rules (doc : Document) :
  checkStructure doc
  = h1Rule (h1Count doc)
    ++ skipRule (hasSkipFrom 0 (headingLevels doc))
    ++ whenAbove 10 (styledCount doc) issue_inline_styles.
Proof.
  unfold checkStructure.
  fold (sel_tag "h1"). rewrite (querySelectorAll_tag "h1").
  assert (Hs : List.length (querySelectorAll sel_style doc) = styledCount doc).
  { unfold querySelectorAll, styledCount, count. f_equal.
    apply filter_ext. intros e. apply matches_style. }
  rewrite Hs. unfold querySelectorAll. rewrite scanHeadings_levels.
  fold (headingLevels doc). fold (h1Count doc).
  unfold h1Rule, skipRule, whenAbove.
  destruct (h1Count doc =? 0); destruct (1 <? h1Count doc);
    destruct (hasSkipFrom 0 (headingLevels doc));
    destruct (10 <? styledCount doc); reflexivity.
Qed.

Lemma checkPerformance_rules (doc : Document) :
  checkPerformance doc
  = whenAbove 30 (imgCount doc) issue_high_image_count
    ++ whenPositive (largeScriptCount doc) issue_large_scripts
    ++ whenPositive (List.length (blockingScripts doc)) issue_blocking_scripts.
Proof.
  unfold checkPerformance.
  fold (sel_tag "img"). rewrite (querySelectorAll_tag "img").
  rewrite !countEach_length.
  assert (Hl : List.length
                 (filter (fun s => 2000 <? String.length (textContent s))
                    (querySelectorAll sel_inline_script doc))
               = largeScriptCount doc).
  { unfold querySelectorAll, largeScriptCount, count.
    rewrite filter_filter. f_equal. apply filter_ext. intros e.
    unfold isLargeInlineScript. now rewrite matches_inline_script. }
  assert (Hb : filter
                 (fun s => negb (hasAttribute s "async")
                           && negb (hasAttribute s "defer"))
                 match head doc with
                 | Some h => elementQuerySelectorAll sel_script_src h
                 | None => []
                 end
               = blockingScripts doc).
  { unfold blockingScripts. destruct (head doc) as [h|]; [|reflexivity].
    unfold elementQuerySelectorAll. rewrite filter_filter.
    apply filter_ext. intros e. unfold isBlockingScript.
    rewrite matches_script_src. now rewrite <- !andb_assoc. }
  rewrite Hl, Hb. fold (imgCount doc).
  unfold whenAbove, whenPositive.
  destruct (30 <? imgCount doc); destruct (0 <? largeScriptCount doc);
    destruct (0 <? List.length (blockingScripts doc)); reflexivity.
Qed.

End Groups.

(* ================================================================== *)
(** ** Taking elements out of a document *)

Section Without.

Import DOM analyzer Rules Views Canonical.

Variable drop : Node -> bool.
Hypothesis drop_void : forall n, drop n = true -> isVoid n = true.

Lemma void_inv (n : Node) :
  isVoid n = true -> exists name attrs, n = Element name attrs [].
Proof.
  destruct n as [d|d|name attrs [|c ch]]; try discriminate.
  intros _. now exists name, attrs.
Qed.

Lemma concat_cons (x : string) (xs : list string) :
  String.concat "" (x :: xs) = (x ++ String.concat "" xs)%string.
Proof.
  destruct xs as [|y ys]; [|reflexivity].
  simpl. clear. induction x as [|c x IH]; simpl; [reflexivity|].
  now rewrite <- IH.
Qed.

Lemma textContent_without (n : Node) :
  textContent (without drop n) = textContent n.
Proof.
  induction n as [d|d|name attrs ch IH] using Node_tree_ind;
    try reflexivity.
  cbn [without textContent].
  induction IH as [|c r Hc _ IHr]; [reflexivity|].
  cbn [flat_map map]. rewrite concat_cons.
  destruct (drop c) eqn:Ec.
  - destruct (void_inv c (drop_void c Ec)) as (nm & at' & ->).
    cbn [app]. exact IHr.
  - cbn [app map]. now rewrite concat_cons, Hc, IHr.
Qed.

Lemma isElementNamed_without (name : string) (n : Node) :
  isElementNamed name (without drop n) = isElementNamed name n.
Proof. destruct n; reflexivity. Qed.

Lemma attributesOf_without (n : Node) :
  attributesOf (without drop n) = attributesOf n.
Proof. destruct n; reflexivity. Qed.

Lemma hasAttribute_without (name : string) (n : Node) :
  hasAttribute (without drop n) name = hasAttribute n name.
Proof. unfold hasAttribute. now rewrite attributesOf_without. Qed.

Lemma getAttribute_without (name : string) (n : Node) :
  getAttribute (without drop n) name = getAttribute n name.
Proof. unfold getAttribute. now rewrite attributesOf_without. Qed.

Lemma headingLevel_without (n : Node) :
  headingLevel (without drop n) = headingLevel n.
Proof. destruct n; reflexivity. Qed.

(** *** Readings that do not see what is taken out *)

Section Reading.

Context {X : Type} (g : Node -> list X).
Hypothesis g_blind : blindTo drop g.

Lemma read_inclusive (n : Node) :
  flat_map g (descendantElements (without drop n))
  = flat_map g (descendantElements n) ->
  flat_map g (inclusiveElements (without drop n))
  = flat_map g (inclusiveElements n).
Proof.
  destruct g_blind as [_ Hg].
  destruct n as [d|d|name attrs ch]; try reflexivity.
  intros H. specialize (Hg (Element name attrs ch)).
  cbn [without] in *. cbn [inclusiveElements flat_map].
  unfold descendantElements in H. cbn [childNodesOf] in H.
  now rewrite Hg, H.
Qed.

Lemma read_descendants (n : Node) :
  flat_map g (descendantElements (without drop n))
  = flat_map g (descendantElements n).
Proof.
  induction n as [d|d|name attrs ch IH] using Node_tree_ind;
    try reflexivity.
  unfold descendantElements. cbn [without childNodesOf].
  induction IH as [|c r Hc _ IHr]; [reflexivity|].
  cbn [flat_map]. rewrite flat_map_app.
  destruct (drop c) eqn:Ec.
  - destruct (void_inv c (drop_void c Ec)) as (nm & at' & ->).
    cbn [app inclusiveElements flat_map].
    rewrite (proj1 g_blind _ Ec). cbn [app]. exact IHr.
  - cbn [app flat_map]. rewrite app_nil_r, !flat_map_app.
    now rewrite (read_inclusive c Hc), IHr.
Qed.

Lemma read_document (doc : Document) :
  elementsRead g (withoutInDocument drop doc) = elementsRead g doc.
Proof.
  unfold elementsRead, documentElements, withoutInDocument.
  destruct doc as [[r|]]; [|reflexivity].
  cbn [documentElement option_map].
  apply read_inclusive, read_descendants.
Qed.

End Reading.

Lemma reading_blind {X : Type} (p : Node -> bool) (f : Node -> X) :
  (forall n, drop n = true -> p n = false) ->
  (forall n, p (without drop n) = p n) ->
  (forall n, f (without drop n) = f n) ->
  blindTo drop (reading p f).
Proof.
  intros Hd Hp Hf. split; intros n; unfold reading.
  - intros Hn. now rewrite (Hd n Hn).
  - now rewrite Hp, Hf.
Qed.

Lemma flat_map_reading {X : Type} (p : Node -> bool) (f : Node -> X)
    (l : list Node) :
  flat_map (reading p f) l = map f (filter p l).
Proof.
  induction l as [|x l IH]; [reflexivity|].
  cbn [flat_map filter]. unfold reading at 1.
  destruct (p x); cbn [app map]; now rewrite IH.
Qed.

Lemma length_filter_reading (p : Node -> bool) (l : list Node) :
  List.length (filter p l)
  = List.length (flat_map (reading p (fun _ => tt)) l).
Proof. now rewrite flat_map_reading, length_map. Qed.

Lemma filtered_without {X : Type} (p : Node -> bool) (f : Node -> X)
    (doc : Document) :
  (forall n, drop n = true -> p n = false) ->
  (forall n, p (without drop n) = p n) ->
  (forall n, f (without drop n) = f n) ->
  map f (filter p (documentElements (withoutInDocument drop doc)))
  = map f (filter p (documentElements doc)).
Proof.
  intros Hd Hp Hf. rewrite <- !flat_map_reading.
  apply (read_document (reading p f)). now apply reading_blind.
Qed.

Lemma count_without (p : Node -> bool) (doc : Document) :
  (forall n, drop n = true -> p n = false) ->
  (forall n, p (without drop n) = p n) ->
  count p (withoutInDocument drop doc) = count p doc.
Proof.
  intros Hd Hp. unfold count.
  rewrite <- (length_map (fun _ => tt)).
  rewrite (filtered_without p (fun _ => tt) doc Hd Hp (fun _ => eq_refl)).
  apply length_map.
Qed.

Lemma existsb_count (p : Node -> bool) (l : list Node) :
  existsb p l = negb (List.length (filter p l) =? 0).
Proof. rewrite filter_none_length. now rewrite negb_involutive. Qed.

Lemma existsb_without (p : Node -> bool) (doc : Document) :
  (forall n, drop n = true -> p n = false) ->
  (forall n, p (without drop n) = p n) ->
  existsb p (documentElements (withoutInDocument drop doc))
  = existsb p (documentElements doc).
Proof.
  intros Hd Hp. rewrite !existsb_count.
  now rewrite (count_without p doc Hd Hp : List.length _ = List.length _).
Qed.

End Without.

(* ================================================================== *)
(** ** Properties of the rules *)

Section Claims.

Import DOM analyzer Rules Samples Views.

Ltac split_conditions :=
  repeat match goal with
    | |- context [if ?b then _ else _] =>
        let E := fresh "E" in destruct b eqn:E
    end.

Ltac arith_conditions :=
  repeat match goal with
    | H : (_ <? _) = true |- _ => apply Nat.ltb_lt in H
    | H : (_ <? _) = false |- _ => apply Nat.ltb_ge in H
    | H : (_ =? _) = true |- _ => apply Nat.eqb_eq in H
    | H : (_ =? _) = false |- _ => apply Nat.eqb_neq in H
    end.

Ltac settle := first [reflexivity | exfalso; lia].

Ltac by_rules rules_lemma :=
  rewrite rules_lemma; unfold issuesTitled; rewrite !filter_app;
  unfold titleRule, unless, whenPositive, whenAbove, h1Rule, skipRule;
  split_conditions; arith_conditions; settle.

Lemma querySelector_title (doc : Document) :
  querySelector sel_title doc = titleElement doc.
Proof.
  unfold querySelector, querySelectorAll, titleElement.
  induction (documentElements doc) as [|e l IH]; [reflexivity|].
  cbn [filter find].
  change (matches sel_title e) with (matches (sel_tag "title") e).
  rewrite matches_tag.
  destruct (isElementNamed "title" e); [reflexivity | exact IH].
Qed.



Lemma hasAttribute_In (e : Node) (name : string) :
  hasAttribute e name = true <-> exists v, In (name, v) (attributesOf e).
Proof.
  unfold hasAttribute. rewrite existsb_exists. split.
  - intros ([k v] & Hin & Hk). simpl in Hk. apply String.eqb_eq in Hk.
    subst. now exists v.
  - intros (v & Hin). exists (name, v). split; [exact Hin|].
    simpl. apply String.eqb_refl.
Qed.

(** C4. H1 count: no [h1] element gives exactly the missing-H1 error, one
    [h1] gives no H1 issue, and more than one gives exactly the multiple-H1
    warning carrying the count. *)
Theorem h1_count_mapping (doc : Document) :
  (h1Count doc = 0 -> h1Issues doc = [issue_missing_h1])
  /\ (h1Count doc = 1 -> h1Issues doc = [])
  /\ (1 < h1Count doc -> h1Issues doc = [issue_multiple_h1 (h1Count doc)])
  /\ (forall n, issue_missing_h1 <> issue_multiple_h1 n)
  /\ description (issue_multiple_h1 3) = "Found 3 <h1> tags.".
Proof.
  unfold h1Issues.
  repeat split; try discriminate; intros H; by_rules checkStructure_rules.
Qed.

Lemma h1_count_mapping_witness :
  h1Issues minimalDocument = [issue_missing_h1]
  /\ h1Issues (headingsPage ["h1"; "h2"]) = []
  /\ h1Issues (headingsPage ["h1"; "h1"; "h2"; "h1"]) = [issue_multiple_h1 3].
Proof.
  split; [|split].
  - apply (proj1 (h1_count_mapping minimalDocument)). reflexivity.
  - apply (proj1 (proj2 (h1_count_mapping (headingsPage ["h1"; "h2"])))).
    reflexivity.
  - apply (proj1 (proj2 (proj2
             (h1_count_mapping (headingsPage ["h1"; "h1"; "h2"; "h1"]))))).
    vm_compute. lia.
Defined.

(** C5. Image alt text: [checkAccessibility] counts the [img] elements that
    have no [alt] attribute, whatever the value of an [alt] that is there
    (an empty one is there); a positive count gives exactly one error
    carrying the count, a zero count no alt-text issue.  Of three images with
    two lacking [alt], the error says 2. *)
Theorem alt_text_coverage (doc : Document) :
  (0 < missingAltCount doc
   -> altIssues doc = [issue_missing_alt (missingAltCount doc)])
  /\ (missingAltCount doc = 0 -> altIssues doc = [])
  /\ (forall e, lacksAlt e = true <->
        isElementNamed "img" e = true
        /\ ~ exists v, In ("alt", v) (attributesOf e))
  /\ (forall attrs ch, lacksAlt (Element "img" (("alt", "") :: attrs) ch)
                       = false)
  /\ missingAltCount threeImagesPage = 2
  /\ altIssues threeImagesPage = [issue_missing_alt 2]
  /\ description (issue_missing_alt 2)
     = "Found 2 <img> tag(s) without an alt attribute."
  /\ category (issue_missing_alt 2) = Accessibility
  /\ severity (issue_missing_alt 2) = error.
Proof.
  unfold altIssues.
  split; [|split; [|split; [|repeat split]]].
  - intros H. by_rules checkAccessibility_rules.
  - intros H. by_rules checkAccessibility_rules.
  - intros e. unfold lacksAlt. rewrite andb_true_iff, negb_true_iff.
    rewrite <- hasAttribute_In, not_true_iff_false. reflexivity.
Qed.

Lemma alt_text_coverage_witness :
  altIssues threeImagesPage = [issue_missing_alt 2]
  /\ altIssues describedImagesPage = [].
Proof.
  split.
  - apply (proj1 (alt_text_coverage threeImagesPage)). vm_compute. lia.
  - apply (proj1 (proj2 (alt_text_coverage describedImagesPage))).
    reflexivity.
Defined.

(** C6. Generic link text: [checkAccessibility] counts the [a] elements
    whose text, trimmed and lower-cased, is equal to one of "click here",
    "read more", "more", "link", "here"; a positive count gives exactly one
    warning carrying the count, a zero count none.  "Click here " is counted,
    "click here now" is not. *)
Theorem generic_link_text (doc : Document) :
  (0 < genericLinkCount doc
   -> linkIssues doc = [issue_generic_links (genericLinkCount doc)])
  /\ (genericLinkCount doc = 0 -> linkIssues doc = [])
  /\ (forall e, isGenericLink e = true <->
        isElementNamed "a" e = true
        /\ In (JS.toLowerCase (JS.trim (textContent e)))
              ["click here"; "read more"; "more"; "link"; "here"])
  /\ JS.toLowerCase (JS.trim "Click here ") = "click here"
  /\ isGenericLink (link "Click here ") = true
  /\ isGenericLink (link "click here now") = false
  /\ linkIssues linksPage = [issue_generic_links 1]
  /\ severity (issue_generic_links 1) = warning
  /\ description (issue_generic_links 1)
     = ("Found 1 link(s) satisfying generic text like " ++ JS.dq
        ++ "click here" ++ JS.dq ++ ".")%string.
Proof.
  unfold linkIssues.
  split; [|split; [|split; [|repeat split]]].
  - intros H. by_rules checkAccessibility_rules.
  - intros H. by_rules checkAccessibility_rules.
  - intros e. unfold isGenericLink, normalizedText.
    rewrite andb_true_iff, existsb_exists.
    split; intros [Ha Hb]; (split; [exact Ha|]).
    + destruct Hb as (term & Hin & Heq). apply String.eqb_eq in Heq.
      now rewrite <- Heq.
    + eexists. split; [exact Hb | apply String.eqb_refl].
Qed.

Lemma generic_link_text_witness :
  linkIssues linksPage = [issue_generic_links 1]
  /\ linkIssues descriptiveLinksPage = [].
Proof.
  split.
  - apply (proj1 (generic_link_text linksPage)). vm_compute. lia.
  - apply (proj1 (proj2 (generic_link_text descriptiveLinksPage))).
    reflexivity.
Defined.

(** C8. Inline styles: [checkStructure] counts the elements that carry a
    [style] attribute, whatever its value; up to 10 of them, so exactly 10,
    give no inline-style issue, and 11 or more give exactly one info issue
    carrying the count. *)
Theorem inline_style_threshold (doc : Document) :
  (styledCount doc <= 10 -> styleIssues doc = [])
  /\ (11 <= styledCount doc
      -> styleIssues doc = [issue_inline_styles (styledCount doc)])
  /\ (forall e, isStyled e = true <->
        exists v, In ("style", v) (attributesOf e))
  /\ styledCount (styledPage 10) = 10
  /\ styleIssues (styledPage 10) = []
  /\ styledCount (styledPage 11) = 11
  /\ styleIssues (styledPage 11) = [issue_inline_styles 11]
  /\ severity (issue_inline_styles 11) = info
  /\ description (issue_inline_styles 11)
     = "Found 11 elements with inline 'style' attributes.".
Proof.
  unfold styleIssues.
  split; [|split; [|split; [|repeat split]]].
  - intros H. by_rules checkStructure_rules.
  - intros H. by_rules checkStructure_rules.
  - intros e. apply hasAttribute_In.
Qed.

Lemma inline_style_threshold_witness :
  styleIssues (styledPage 10) = []
  /\ styleIssues (styledPage 11) = [issue_inline_styles 11].
Proof.
  split.
  - apply (proj1 (inline_style_threshold (styledPage 10))).
    vm_compute. lia.
  - apply (proj1 (proj2 (inline_style_threshold (styledPage 11)))).
    vm_compute. lia.
Defined.

(** C7. Render-blocking scripts: [checkPerformance] counts, among the
    descendants of [document.head] only, the [script] elements with a [src]
    and with neither [async] nor [defer]; a positive count gives exactly one
    warning carrying the count, a zero count none; a document without a
    head gives none. *)
Theorem render_blocking_scripts (doc : Document) :
  (0 < List.length (blockingScripts doc)
   -> blockingIssues doc
      = [issue_blocking_scripts (List.length (blockingScripts doc))])
  /\ (List.length (blockingScripts doc) = 0 -> blockingIssues doc = [])
  /\ (head doc = None -> blockingIssues doc = [])
  /\ (forall e, In e (blockingScripts doc) <->
        exists h, head doc = Some h
          /\ In e (descendantElements h)
          /\ isElementNamed "script" e = true
          /\ hasAttribute e "src" = true
          /\ hasAttribute e "async" = false
          /\ hasAttribute e "defer" = false)
  /\ blockingIssues blockingHeadPage = [issue_blocking_scripts 1]
  /\ blockingIssues blockingBodyPage = []
  /\ blockingIssues headlessDocument = []
  /\ severity (issue_blocking_scripts 1) = warning
  /\ description (issue_blocking_scripts 1)
     = "Found 1 script(s) in <head> that are not async or defer.".
Proof.
  unfold blockingIssues.
  split; [|split; [|split; [|split; [|repeat split]]]].
  - intros H. by_rules checkPerformance_rules.
  - intros H. by_rules checkPerformance_rules.
  - intros H. rewrite checkPerformance_rules.
    unfold blockingScripts. rewrite H.
    unfold issuesTitled; rewrite !filter_app.
    unfold whenAbove, whenPositive. cbn [List.length Nat.ltb Nat.leb].
    split_conditions; reflexivity.
  - intros e. unfold blockingScripts. destruct (head doc) as [h|].
    + rewrite filter_In. unfold isBlockingScript.
      rewrite !andb_true_iff, !negb_true_iff. split.
      * intros (Hin & ((Hs & Hsrc) & Ha) & Hd). exists h.
        repeat split; assumption.
      * intros (h' & Heq & Hin & Hs & Hsrc & Ha & Hd).
        injection Heq as <-. repeat split; assumption.
    + split; [intros [] | intros (h & Heq & _); discriminate].
Qed.

Lemma render_blocking_scripts_witness :
  blockingIssues blockingHeadPage = [issue_blocking_scripts 1]
  /\ blockingIssues blockingBodyPage = []
  /\ blockingIssues headlessDocument = [].
Proof.
  split; [|split].
  - apply (proj1 (render_blocking_scripts blockingHeadPage)).
    vm_compute. lia.
  - apply (proj1 (proj2 (render_blocking_scripts blockingBodyPage))).
    reflexivity.
  - apply (proj1 (proj2 (proj2 (render_blocking_scripts headlessDocument)))).
    reflexivity.
Defined.

(** C9. The minimal document [<html><head></head><body></body></html>]
    yields exactly five issues: missing title, missing meta description and
    missing viewport (SEO errors), no semantic landmarks (Accessibility
    info) and missing H1 (Structure error); no skip, alt-text, link,
    inline-style, image-count, inline-script or render-blocking issue. *)
Theorem minimal_document_issues :
  allIssues minimalDocument
  = [issue_missing_title; issue_missing_description; issue_missing_viewport;
     issue_no_landmarks; issue_missing_h1]
  /\ Permutation (allIssues minimalDocument)
       [issue_missing_title; issue_missing_description;
        issue_missing_viewport; issue_missing_h1; issue_no_landmarks]
  /\ map (fun i => (category i, severity i, title i))
         (allIssues minimalDocument)
     = [(SEO, error, "Missing <title> tag");
        (SEO, error, "Missing Meta Description");
        (SEO, error, "Missing Viewport Meta Tag");
        (Accessibility, info, "No Semantic Landmarks Found");
        (Structure, error, "Missing H1 Heading")]
  /\ documentElements minimalDocument
     = [Element "html" [] [Element "head" [] []; Element "body" [] []];
        Element "head" [] []; Element "body" [] []]
  /\ skipIssues minimalDocument = []
  /\ altIssues minimalDocument = []
  /\ linkIssues minimalDocument = []
  /\ styleIssues minimalDocument = []
  /\ blockingIssues minimalDocument = []
  /\ checkPerformance minimalDocument = [].
Proof.
  assert (H : allIssues minimalDocument
              = [issue_missing_title; issue_missing_description;
                 issue_missing_viewport; issue_no_landmarks;
                 issue_missing_h1]) by reflexivity.
  split; [exact H|]. split.
  - rewrite H. do 3 apply perm_skip. apply perm_swap.
  - repeat split.
Qed.

(** *** Heading order *)

Lemma last_cons (c : Z) (p : list Z) (d : Z) : last (c :: p) d = last p c.
Proof.
  revert c d. induction p as [|x p IH]; intros c d; [reflexivity|].
  change (last (c :: x :: p) d) with (last (x :: p) d).
  now rewrite (IH x d), (IH x c).
Qed.

Lemma hasSkipFrom_spec (levels : list Z) (prev : Z) :
  hasSkipFrom prev levels = true <->
  exists pre cur post,
    levels = pre ++ cur :: post /\ (last pre prev + 1 < cur)%Z.
Proof.
  revert prev. induction levels as [|c r IH]; intros prev.
  - split; [discriminate|]. intros (pre & cur & post & H & _).
    destruct pre; discriminate.
  - cbn [hasSkipFrom]. rewrite orb_true_iff, Z.ltb_lt, IH. split.
    + intros [H | (pre & cur & post & Hr & Hlt)].
      * exists [], c, r. split; [reflexivity | exact H].
      * exists (c :: pre), cur, post. split; [now rewrite Hr|].
        now rewrite last_cons.
    + intros (pre & cur & post & Hl & Hlt). destruct pre as [|c' pre].
      * injection Hl as -> ->. left. exact Hlt.
      * injection Hl as -> ->. right. exists pre, cur, post.
        split; [reflexivity|]. now rewrite last_cons in Hlt.
Qed.

Lemma scanHeadings_break (l1 l2 : list Node) (prev : JS.number) :
  scanHeadings prev l1 = true -> scanHeadings prev (l1 ++ l2) = true.
Proof.
  revert prev. induction l1 as [|h l1 IH]; intros prev; [discriminate|].
  cbn [scanHeadings app].
  destruct (JS.gt _ _); [reflexivity | apply IH].
Qed.

Lemma skipIssues_rule (doc : Document) :
  skipIssues doc = skipRule (hasSkipFrom 0 (headingLevels doc)).
Proof.
  unfold skipIssues. rewrite checkStructure_rules.
  unfold issuesTitled; rewrite !filter_app.
  unfold h1Rule, skipRule, whenAbove. split_conditions; reflexivity.
Qed.

(** C1. Heading skips: [checkStructure] walks the headings [h1] to [h6] in
    tree order, starting from level 0, reading each level in the tag name;
    it reports a skip exactly when some heading lies more than one level
    below the one before it, the scan being decided at the first such
    heading whatever follows it; the result holds one skip warning in that
    case and none otherwise, never more.  [h1,h2,h4], [h3] and [h2,h4]
    give the warning, [h1,h2,h3] does not, [h1,h3,h5] gives it once. *)
Theorem heading_skip_detection (doc : Document) :
  (skipIssues doc = [issue_skipped_levels] <-> hasSkip (headingLevels doc))
  /\ (skipIssues doc = [] <-> ~ hasSkip (headingLevels doc))
  /\ List.length (skipIssues doc) <= 1
  /\ (forall e, matches sel_headings e = true ->
        exists k, headingLevel e = Some k
          /\ JS.parseInt (JS.substring1 (tagName e)) = Some k
          /\ (1 <= k <= 6)%Z)
  /\ (forall scanned rest,
        scanHeadings (Some 0%Z) scanned = true ->
        scanHeadings (Some 0%Z) (scanned ++ rest) = true)
  /\ headingLevels (headingsPage ["h1"; "h2"; "h4"]) = [1; 2; 4]%Z
  /\ headingLevels nestedHeadingsPage = [1; 2]%Z
  /\ skipIssues (headingsPage ["h1"; "h2"; "h4"]) = [issue_skipped_levels]
  /\ skipIssues (headingsPage ["h3"]) = [issue_skipped_levels]
  /\ skipIssues (headingsPage ["h3"; "h4"; "h1"]) = [issue_skipped_levels]
  /\ skipIssues (headingsPage ["h2"; "h4"]) = [issue_skipped_levels]
  /\ skipIssues (headingsPage ["h1"; "h2"; "h3"]) = []
  /\ skipIssues (headingsPage ["h1"; "h3"; "h5"]) = [issue_skipped_levels]
  /\ skipIssues nestedHeadingsPage = []
  /\ severity issue_skipped_levels = warning.
Proof.
  assert (Hs : hasSkipFrom 0 (headingLevels doc) = true
               <-> hasSkip (headingLevels doc))
    by apply hasSkipFrom_spec.
  rewrite skipIssues_rule. unfold skipRule.
  split; [|split; [|split; [|split; [|split; [|repeat split]]]]].
  - rewrite <- Hs. destruct (hasSkipFrom 0 (headingLevels doc));
      split; (reflexivity || discriminate).
  - rewrite <- Hs. destruct (hasSkipFrom 0 (headingLevels doc)); split;
      try reflexivity; try discriminate.
    intros H. exfalso. now apply H.
  - destruct (hasSkipFrom 0 (headingLevels doc)); simpl; lia.
  - intros e He. destruct (heading_parseInt e He) as (k & Hk & Hp).
    exists k. split; [exact Hk|]. split; [exact Hp|].
    destruct e as [d|d|name attrs ch]; try discriminate.
    simpl in Hk. revert Hk. split_conditions; intros [= <-]; lia.
  - intros scanned rest. apply scanHeadings_break.
Qed.

Lemma heading_skip_detection_witness :
  skipIssues (headingsPage ["h1"; "h2"; "h4"; "h6"]) = [issue_skipped_levels]
  /\ skipIssues (headingsPage ["h1"; "h2"; "h2"; "h3"]) = []
  /\ (exists k, headingLevel (Element "h4" [] []) = Some k
         /\ JS.parseInt (JS.substring1 (tagName (Element "h4" [] []))) = Some k
         /\ (1 <= k <= 6)%Z)
  /\ scanHeadings (Some 0%Z)
       ([Element "h1" [] []; Element "h3" [] []] ++ [Element "h2" [] []])
     = true.
Proof.
  split; [|split; [|split]].
  - apply (proj1 (heading_skip_detection
                    (headingsPage ["h1"; "h2"; "h4"; "h6"]))).
    exists [1; 2]%Z, 4%Z, [6]%Z. split; [reflexivity | vm_compute; reflexivity].
  - apply (proj1 (proj2 (heading_skip_detection
                           (headingsPage ["h1"; "h2"; "h2"; "h3"])))).
    intros H. apply hasSkipFrom_spec in H. discriminate H.
  - apply (proj1 (proj2 (proj2 (proj2
             (heading_skip_detection minimalDocument))))).
    reflexivity.
  - apply (proj1 (proj2 (proj2 (proj2 (proj2
             (heading_skip_detection minimalDocument)))))).
    reflexivity.
Defined.

(** *** Order of the result *)

Lemma sorted_app (l1 l2 : list nat) :
  StronglySorted lt l1 -> StronglySorted lt l2 ->
  (forall x y, In x l1 -> In y l2 -> x < y) ->
  StronglySorted lt (l1 ++ l2).
Proof.
  intros H1 H2 H. induction H1 as [|a l1 Hs IH Ha]; [exact H2|].
  simpl. constructor.
  - apply IH. intros x y Hx Hy. apply H; [now right | exact Hy].
  - apply Forall_app. split; [exact Ha|].
    apply Forall_forall. intros y Hy. apply H; [now left | exact Hy].
Qed.

Lemma map_category_repeat (c : Category) (l : list Issue) :
  Forall (fun i => category i = c) l ->
  map category l = repeat c (List.length l).
Proof.
  induction 1 as [|i l Hi _ IH]; [reflexivity|].
  simpl. now rewrite Hi, IH.
Qed.

Ltac group_cases :=
  unfold groupOf, ranked, titleRule, unless, whenPositive, whenAbove, h1Rule,
    skipRule;
  split_conditions;
  (split; [|split]);
  repeat (constructor; try reflexivity; try (vm_compute; lia)).

Lemma checkSEO_group (doc : Document) : groupOf SEO 1 3 (checkSEO doc).
Proof.
  rewrite checkSEO_rules.
  destruct (querySelector sel_title doc); group_cases.
Qed.

Lemma checkAccessibility_group (doc : Document) :
  groupOf Accessibility 4 6 (checkAccessibility doc).
Proof. rewrite checkAccessibility_rules. group_cases. Qed.

Lemma checkStructure_group (doc : Document) :
  groupOf Structure 7 9 (checkStructure doc).
Proof. rewrite checkStructure_rules. group_cases. Qed.

Lemma checkPerformance_group (doc : Document) :
  groupOf Performance 10 12 (checkPerformance doc).
Proof. rewrite checkPerformance_rules. group_cases. Qed.

Lemma ranked_app (a b c d : nat) (l1 l2 : list Issue) :
  a <= b -> b < c -> c <= d ->
  ranked a b l1 -> ranked c d l2 -> ranked a d (l1 ++ l2).
Proof.
  intros Hab Hbc Hcd (B1 & S1) (B2 & S2).
  rewrite Forall_forall in B1, B2. split.
  - apply Forall_forall. intros i Hi. apply in_app_or in Hi.
    destruct Hi as [Hi | Hi]; [specialize (B1 i Hi) | specialize (B2 i Hi)];
      lia.
  - rewrite map_app. apply sorted_app; [exact S1 | exact S2 |].
    intros x y Hx Hy. apply in_map_iff in Hx, Hy.
    destruct Hx as (i & <- & Hi), Hy as (j & <- & Hj).
    specialize (B1 i Hi). specialize (B2 j Hj). lia.
Qed.

(** C3. Group order: the result is the result of [checkSEO], then of
    [checkAccessibility], [checkStructure] and [checkPerformance]; every
    group returns issues of its own category only; the rules appear in the
    order of their enumeration, each at most once; so the categories of the
    result are a run of SEO, then of Accessibility, of Structure, of
    Performance, without interleaving. *)
Theorem group_ordering (doc : Document) :
  allIssues doc
  = checkSEO doc ++ checkAccessibility doc ++ checkStructure doc
    ++ checkPerformance doc
  /\ Forall (fun i => category i = SEO) (checkSEO doc)
  /\ Forall (fun i => category i = Accessibility) (checkAccessibility doc)
  /\ Forall (fun i => category i = Structure) (checkStructure doc)
  /\ Forall (fun i => category i = Performance) (checkPerformance doc)
  /\ StronglySorted lt (map ruleNumber (allIssues doc))
  /\ Forall (fun i => 1 <= ruleNumber i <= 12) (allIssues doc)
  /\ map category (allIssues doc)
     = repeat SEO (List.length (checkSEO doc))
       ++ repeat Accessibility (List.length (checkAccessibility doc))
       ++ repeat Structure (List.length (checkStructure doc))
       ++ repeat Performance (List.length (checkPerformance doc))
  /\ map category (allIssues busyPage)
     = [SEO; SEO; SEO; Accessibility; Accessibility; Structure; Structure;
        Performance].
Proof.
  destruct (checkSEO_group doc) as (C1 & R1).
  destruct (checkAccessibility_group doc) as (C2 & R2).
  destruct (checkStructure_group doc) as (C3 & R3).
  destruct (checkPerformance_group doc) as (C4 & R4).
  assert (R : ranked 1 12 (allIssues doc)).
  { unfold allIssues.
    apply (ranked_app 1 3 4 12); try lia; [exact R1|].
    apply (ranked_app 4 6 7 12); try lia; [exact R2|].
    apply (ranked_app 7 9 10 12); try lia; assumption. }
  destruct R as (B & S).
  repeat split; try assumption.
  - unfold allIssues. rewrite !map_app.
    now rewrite (map_category_repeat SEO _ C1),
      (map_category_repeat Accessibility _ C2),
      (map_category_repeat Structure _ C3),
      (map_category_repeat Performance _ C4).
Qed.

End Claims.

(* ================================================================== *)
(** ** The canonical link is not read by any rule *)

Section Noninterference.

Import DOM analyzer Rules Views Canonical.

Variable drop : Node -> bool.
Hypothesis drop_void : forall n, drop n = true -> isVoid n = true.
Hypothesis drop_link : forall n, drop n = true -> isElementNamed "link" n = true.

Lemma dropped_name (name : string) (n : Node) :
  ("link" =? name)%string = false -> drop n = true ->
  isElementNamed name n = false.
Proof.
  intros Hname Hn. apply drop_link in Hn.
  destruct n as [d|d|nm attrs ch]; try reflexivity.
  simpl in *. apply String.eqb_eq in Hn. now subst.
Qed.

Lemma hd_error_map {A B : Type} (f : A -> B) (l : list A) :
  option_map f (hd_error l) = hd_error (map f l).
Proof. destruct l; reflexivity. Qed.

Lemma titleRule_length (t t' : option Node) :
  option_map titleLength t = option_map titleLength t' ->
  titleRule t = titleRule t'.
Proof.
  destruct t, t'; simpl; try discriminate; [|reflexivity].
  intros [= H]. now rewrite H.
Qed.

Lemma title_without (doc : Document) :
  titleRule (querySelector sel_title (withoutInDocument drop doc))
  = titleRule (querySelector sel_title doc).
Proof.
  apply titleRule_length. unfold querySelector, querySelectorAll.
  rewrite !hd_error_map. f_equal.
  apply filtered_without; try assumption; intros n.
  - intros Hn. change sel_title with (sel_tag "title").
    rewrite matches_tag. now apply dropped_name.
  - change sel_title with (sel_tag "title").
    rewrite !matches_tag. apply isElementNamed_without.
  - unfold titleLength, decodedText. now rewrite textContent_without.
Qed.

Lemma isMeta_without (name : string) (n : Node) :
  isMeta name (without drop n) = isMeta name n.
Proof.
  unfold isMeta. now rewrite isElementNamed_without, getAttribute_without.
Qed.

Lemma isMeta_dropped (name : string) (n : Node) :
  drop n = true -> isMeta name n = false.
Proof.
  intros Hn. unfold isMeta.
  now rewrite (dropped_name "meta" n eq_refl Hn).
Qed.

Lemma checkSEO_without (doc : Document) :
  checkSEO (withoutInDocument drop doc) = checkSEO doc.
Proof.
  rewrite !checkSEO_rules, title_without.
  rewrite !(existsb_without drop drop_void (isMeta _) doc
              (isMeta_dropped _) (isMeta_without _)).
  reflexivity.
Qed.

Lemma lacksAlt_without (n : Node) : lacksAlt (without drop n) = lacksAlt n.
Proof.
  unfold lacksAlt. now rewrite isElementNamed_without, hasAttribute_without.
Qed.

Lemma isGenericLink_without (n : Node) :
  isGenericLink (without drop n) = isGenericLink n.
Proof.
  unfold isGenericLink, normalizedText.
  now rewrite isElementNamed_without, textContent_without.
Qed.

Lemma isLandmark_without (n : Node) :
  isLandmark (without drop n) = isLandmark n.
Proof.
  unfold isLandmark. apply existsb_ext. intros tag.
  apply isElementNamed_without.
Qed.

Lemma isLandmark_dropped (n : Node) : drop n = true -> isLandmark n = false.
Proof.
  intros Hn. unfold isLandmark, landmarks. cbn [existsb].
  now rewrite !(fun name H => dropped_name name n H Hn) by reflexivity.
Qed.

Lemma checkAccessibility_without (doc : Document) :
  checkAccessibility (withoutInDocument drop doc) = checkAccessibility doc.
Proof.
  rewrite !checkAccessibility_rules.
  unfold missingAltCount, genericLinkCount.
  rewrite (count_without drop drop_void lacksAlt doc).
  - rewrite (count_without drop drop_void isGenericLink doc).
    + now rewrite (existsb_without drop drop_void isLandmark doc
                     isLandmark_dropped isLandmark_without).
    + intros n Hn. unfold isGenericLink.
      now rewrite (dropped_name "a" n eq_refl Hn).
    + apply isGenericLink_without.
  - intros n Hn. unfold lacksAlt.
    now rewrite (dropped_name "img" n eq_refl Hn).
  - apply lacksAlt_without.
Qed.

Lemma levelsOf_reading (l : list Node) :
  levelsOf l
  = flat_map (fun e => match headingLevel e with
                       | Some k => [k]
                       | None => []
                       end) l.
Proof.
  induction l as [|e l IH]; [reflexivity|].
  cbn [levelsOf flat_map]. destruct (headingLevel e); now rewrite IH.
Qed.

Lemma headingLevels_without (doc : Document) :
  headingLevels (withoutInDocument drop doc) = headingLevels doc.
Proof.
  unfold headingLevels. rewrite !levelsOf_reading.
  apply (read_document drop drop_void). split; intros n.
  - intros Hn. apply drop_link in Hn.
    destruct n as [d|d|nm attrs ch]; try reflexivity.
    simpl in Hn. apply String.eqb_eq in Hn. now subst.
  - now rewrite headingLevel_without.
Qed.

Lemma head_without (doc : Document) :
  head (withoutInDocument drop doc) = option_map (without drop) (head doc).
Proof.
  destruct doc as [[[d|d|name attrs ch]|]]; try reflexivity.
  unfold head. cbn [withoutInDocument documentElement option_map without].
  destruct (name =? "html")%string; [|reflexivity].
  induction ch as [|c r IH]; [reflexivity|].
  cbn [flat_map find]. destruct (drop c) eqn:Ec.
  - rewrite (dropped_name "head" c eq_refl Ec). exact IH.
  - cbn [app find]. rewrite isElementNamed_without.
    destruct (isElementNamed "head" c); [reflexivity | exact IH].
Qed.

Lemma isBlockingScript_without (n : Node) :
  isBlockingScript (without drop n) = isBlockingScript n.
Proof.
  unfold isBlockingScript.
  now rewrite isElementNamed_without, !hasAttribute_without.
Qed.

Lemma blockingScripts_without (doc : Document) :
  List.length (blockingScripts (withoutInDocument drop doc))
  = List.length (blockingScripts doc).
Proof.
  unfold blockingScripts. rewrite head_without.
  destruct (head doc) as [h|]; [|reflexivity].
  cbn [option_map].
  rewrite !(length_filter_reading isBlockingScript).
  f_equal. apply (read_descendants drop drop_void).
  apply reading_blind; [| apply isBlockingScript_without | reflexivity].
  intros n Hn. unfold isBlockingScript.
  now rewrite (dropped_name "script" n eq_refl Hn).
Qed.

Lemma checkPerformance_without (doc : Document) :
  checkPerformance (withoutInDocument drop doc) = checkPerformance doc.
Proof.
  rewrite !checkPerformance_rules, blockingScripts_without.
  unfold imgCount, largeScriptCount.
  rewrite (count_without drop drop_void (isElementNamed "img") doc).
  - rewrite (count_without drop drop_void isLargeInlineScript doc);
      [reflexivity | |].
    + intros n Hn. unfold isLargeInlineScript.
      now rewrite (dropped_name "script" n eq_refl Hn).
    + intros n. unfold isLargeInlineScript.
      now rewrite isElementNamed_without, hasAttribute_without,
        textContent_without.
  - intros n Hn. now apply dropped_name.
  - intros n. apply isElementNamed_without.
Qed.

Hypothesis drop_plain : forall n, drop n = true -> hasAttribute n "style" = false.

Lemma checkStructure_without (doc : Document) :
  checkStructure (withoutInDocument drop doc) = checkStructure doc.
Proof.
  rewrite !checkStructure_rules, headingLevels_without.
  unfold h1Count, styledCount.
  rewrite (count_without drop drop_void (isElementNamed "h1") doc).
  - rewrite (count_without drop drop_void isStyled doc); [reflexivity | |].
    + exact drop_plain.
    + intros n. apply hasAttribute_without.
  - intros n Hn. now apply dropped_name.
  - intros n. apply isElementNamed_without.
Qed.

Lemma allIssues_without (doc : Document) :
  allIssues (withoutInDocument drop doc) = allIssues doc.
Proof.
  unfold allIssues.
  now rewrite checkSEO_without, checkAccessibility_without,
    checkStructure_without, checkPerformance_without.
Qed.

End Noninterference.

Section CanonicalLink.

Import DOM analyzer Rules Views Samples Canonical.

Lemma canonical_void (n : Node) : isCanonicalLink n = true -> isVoid n = true.
Proof. unfold isCanonicalLink. now rewrite andb_true_iff. Qed.

Lemma canonical_link (n : Node) :
  isCanonicalLink n = true -> isElementNamed "link" n = true.
Proof.
  unfold isCanonicalLink, matches, sel_link_canonical. cbn [existsb forallb].
  cbn [matchesSimple]. destruct (isElementNamed "link" n); [reflexivity|].
  discriminate.
Qed.

Lemma plain_canonical (n : Node) :
  isPlainCanonicalLink n = true ->
  isCanonicalLink n = true /\ hasAttribute n "style" = false.
Proof.
  unfold isPlainCanonicalLink. now rewrite andb_true_iff, negb_true_iff.
Qed.




End CanonicalLink.

(* ================================================================== *)
(** ** Further properties of the analyzer *)

Section MoreRules.

Import DOM analyzer Rules Views Samples MoreSamples.

Ltac split_conditions :=
  repeat match goal with
    | |- context [if ?b then _ else _] =>
        let E := fresh "E" in destruct b eqn:E
    end.

Ltac arith_conditions :=
  repeat match goal with
    | H : (_ <? _) = true |- _ => apply Nat.ltb_lt in H
    | H : (_ <? _) = false |- _ => apply Nat.ltb_ge in H
    | H : (_ =? _) = true |- _ => apply Nat.eqb_eq in H
    | H : (_ =? _) = false |- _ => apply Nat.eqb_neq in H
    end.

Ltac by_rules rules_lemma :=
  rewrite rules_lemma; unfold issuesTitled; rewrite !filter_app;
  unfold titleRule, unless, whenPositive, whenAbove, h1Rule, skipRule;
  split_conditions; arith_conditions;
  first [reflexivity | exfalso; lia].

Lemma existsb_none {A : Type} (p : A -> bool) (l : list A) :
  existsb p l = false <-> forall x, In x l -> p x = false.
Proof.
  split.
  - intros H x Hx. destruct (p x) eqn:E; [|reflexivity].
    rewrite <- H. symmetry. apply existsb_exists. now exists x.
  - intros H. destruct (existsb p l) eqn:E; [|reflexivity].
    apply existsb_exists in E. destruct E as (x & Hx & Hp).
    now rewrite (H x Hx) in Hp.
Qed.

Lemma isMeta_spec (name : string) (e : Node) :
  isMeta name e = true <->
  isElementNamed "meta" e = true /\ getAttribute e "name" = Some name.
Proof.
  unfold isMeta. rewrite andb_true_iff.
  destruct (getAttribute e "name") as [v|].
  - rewrite String.eqb_eq. split; intros [H1 H2]; (split; [exact H1|]);
      congruence.
  - split; intros [_ H]; discriminate.
Qed.

(** X1. Meta description and viewport: [checkSEO] reports the missing
    description exactly when no [meta] element of the document has the
    [name] "description", and the missing viewport exactly when none has
    the [name] "viewport"; the [content] of the element is not looked at. *)
Theorem meta_presence (doc : Document) :
  (In issue_missing_description (checkSEO doc) <->
     forall e, In e (documentElements doc) -> isMeta "description" e = false)
  /\ (In issue_missing_viewport (checkSEO doc) <->
        forall e, In e (documentElements doc) -> isMeta "viewport" e = false)
  /\ (forall name e, isMeta name e = true <->
        isElementNamed "meta" e = true
        /\ getAttribute e "name" = Some name).
Proof.
  split; [|split; [|intros name e; apply isMeta_spec]];
    rewrite <- existsb_none, checkSEO_rules;
    unfold titleRule, unless;
    destruct (querySelector sel_title doc);
    split_conditions; cbn [In app];
    (split; [intros H; first [reflexivity | exfalso; intuition discriminate]
            | intros H; first [discriminate H | tauto]]).
Qed.

Lemma meta_presence_witness :
  In issue_missing_description (checkSEO minimalDocument)
  /\ In issue_missing_viewport (checkSEO minimalDocument)
  /\ ~ In issue_missing_description (checkSEO describedPage)
  /\ ~ In issue_missing_viewport (checkSEO describedPage).
Proof.
  split; [|split; [|split]].
  - apply (proj1 (meta_presence minimalDocument)).
    intros e He. vm_compute in He. intuition (subst; reflexivity).
  - apply (proj1 (proj2 (meta_presence minimalDocument))).
    intros e He. vm_compute in He. intuition (subst; reflexivity).
  - intros H.
    pose proof (proj1 (proj1 (meta_presence describedPage)) H
                  (Element "meta" [("name", "description"); ("content", "")] []))
      as Hm.
    discriminate Hm. vm_compute. tauto.
  - intros H.
    pose proof (proj1 (proj1 (proj2 (meta_presence describedPage))) H
                  (Element "meta" [("name", "viewport")] [])) as Hm.
    discriminate Hm. vm_compute. tauto.
Defined.

(** X2. Landmarks: [checkAccessibility] reports the missing landmarks
    exactly when the document has no element named [main], [nav],
    [header], [footer] or [aside]; one of them anywhere is enough. *)
Theorem landmark_rule (doc : Document) :
  (In issue_no_landmarks (checkAccessibility doc) <->
     forall e, In e (documentElements doc) -> isLandmark e = false)
  /\ (forall e, isLandmark e = true <->
        exists tag, In tag ["main"; "nav"; "header"; "footer"; "aside"]
                    /\ isElementNamed tag e = true).
Proof.
  split.
  - rewrite <- existsb_none, checkAccessibility_rules.
    unfold whenPositive, unless. split_conditions; cbn [In app];
    (split; [intros H; first [reflexivity | exfalso; intuition discriminate]
            | intros H; first [discriminate H | tauto]]).
  - intros e. unfold isLandmark, landmarks. apply existsb_exists.
Qed.

Lemma landmark_rule_witness :
  In issue_no_landmarks (checkAccessibility minimalDocument)
  /\ ~ In issue_no_landmarks (checkAccessibility asidePage).
Proof.
  split.
  - apply (proj1 (landmark_rule minimalDocument)).
    intros e He. vm_compute in He. intuition (subst; reflexivity).
  - intros H.
    pose proof (proj1 (proj1 (landmark_rule asidePage)) H
                  (Element "aside" [] [Text "Related"])) as Hm.
    discriminate Hm. vm_compute. tauto.
Defined.

(** X3. Image count: [checkPerformance] counts every [img] element, with
    or without [alt]; up to 30 of them give no issue, 31 or more give
    exactly one warning that carries the count. *)
Theorem image_volume (doc : Document) :
  (imgCount doc <= 30
   -> issuesTitled ["High Image Count"] (checkPerformance doc) = [])
  /\ (31 <= imgCount doc
      -> issuesTitled ["High Image Count"] (checkPerformance doc)
         = [issue_high_image_count (imgCount doc)])
  /\ missingAltCount doc <= imgCount doc.
Proof.
  split; [|split].
  - intros H. by_rules checkPerformance_rules.
  - intros H. by_rules checkPerformance_rules.
  - unfold missingAltCount, imgCount, count.
    induction (documentElements doc) as [|e l IH]; [apply Nat.le_refl|].
    cbn [filter]. unfold lacksAlt at 1.
    destruct (isElementNamed "img" e); cbn [andb];
      [destruct (negb (hasAttribute e "alt"))|]; cbn [List.length]; lia.
Qed.

Lemma image_volume_witness :
  issuesTitled ["High Image Count"] (checkPerformance (imagesPage 30)) = []
  /\ issuesTitled ["High Image Count"] (checkPerformance (imagesPage 31))
     = [issue_high_image_count 31].
Proof.
  split.
  - apply (proj1 (image_volume (imagesPage 30))). vm_compute. lia.
  - apply (proj1 (proj2 (image_volume (imagesPage 31)))). vm_compute. lia.
Defined.

(** X4. Large inline scripts: [checkPerformance] counts the [script]
    elements without a [src] attribute whose text is longer than 2000
    characters; a script with a [src] is never counted, and 2000 characters
    are not enough.  A positive count gives exactly one info issue that
    carries it, a zero count none. *)
Theorem large_inline_scripts (doc : Document) :
  (largeScriptCount doc = 0
   -> issuesTitled ["Large Inline Scripts"] (checkPerformance doc) = [])
  /\ (0 < largeScriptCount doc
      -> issuesTitled ["Large Inline Scripts"] (checkPerformance doc)
         = [issue_large_scripts (largeScriptCount doc)])
  /\ (forall e, isLargeInlineScript e = true <->
        isElementNamed "script" e = true
        /\ hasAttribute e "src" = false
        /\ 2000 < String.length (textContent e))
  /\ largeScriptCount (scriptsPage 2000) = 0
  /\ largeScriptCount (scriptsPage 2001) = 1.
Proof.
  split; [|split; [|split; [|split]]].
  - intros H. by_rules checkPerformance_rules.
  - intros H. by_rules checkPerformance_rules.
  - intros e. unfold isLargeInlineScript.
    rewrite !andb_true_iff, negb_true_iff, Nat.ltb_lt. tauto.
  - vm_compute. reflexivity.
  - vm_compute. reflexivity.
Qed.

Lemma large_inline_scripts_witness :
  issuesTitled ["Large Inline Scripts"] (checkPerformance (scriptsPage 2000))
  = []
  /\ issuesTitled ["Large Inline Scripts"]
       (checkPerformance (scriptsPage 2001))
     = [issue_large_scripts 1].
Proof.
  split.
  - apply (proj1 (large_inline_scripts (scriptsPage 2000))).
    vm_compute. reflexivity.
  - apply (proj1 (proj2 (large_inline_scripts (scriptsPage 2001)))).
    vm_compute. lia.
Defined.

(** *** No rule reports twice *)

Lemma allIssues_ranked (doc : Document) : ranked 1 12 (allIssues doc).
Proof.
  destruct (checkSEO_group doc) as (_ & R1).
  destruct (checkAccessibility_group doc) as (_ & R2).
  destruct (checkStructure_group doc) as (_ & R3).
  destruct (checkPerformance_group doc) as (_ & R4).
  unfold allIssues.
  apply (ranked_app 1 3 4 12); try lia; [exact R1|].
  apply (ranked_app 4 6 7 12); try lia; [exact R2|].
  apply (ranked_app 7 9 10 12); try lia; assumption.
Qed.

Lemma sorted_length (l : list nat) (lo hi : nat) :
  StronglySorted lt l -> Forall (fun x => lo <= x <= hi) l ->
  List.length l <= hi + 1 - lo.
Proof.
  intros Hs. revert lo. induction Hs as [|a l Hs IH Ha]; intros lo Hb.
  - simpl. lia.
  - inversion Hb as [|? ? Hab Hbl]; subst.
    assert (Hl : Forall (fun x => a + 1 <= x <= hi) l).
    { rewrite Forall_forall in *. intros x Hx.
      specialize (Ha x Hx). specialize (Hbl x Hx). lia. }
    specialize (IH (a + 1) Hl). simpl. lia.
Qed.

Lemma sorted_NoDup (l : list nat) : StronglySorted lt l -> NoDup l.
Proof.
  induction 1 as [|a l Hs IH Ha]; constructor; [|exact IH].
  intros Hin. rewrite Forall_forall in Ha. specialize (Ha a Hin). lia.
Qed.

Lemma ranked_length (lo hi : nat) (l : list Issue) :
  ranked lo hi l -> List.length l <= hi + 1 - lo.
Proof.
  intros (B & S). rewrite <- (length_map ruleNumber).
  apply sorted_length; [exact S|].
  apply Forall_forall. intros x Hx. apply in_map_iff in Hx.
  destruct Hx as (i & <- & Hi). rewrite Forall_forall in B. now apply B.
Qed.

(** X5. No rule reports twice: in the result of an evaluation every title
    appears at most once, a group returns at most three issues and the
    whole evaluation at most twelve. *)
Theorem no_rule_reports_twice (doc : Document) :
  NoDup (map title (allIssues doc))
  /\ List.length (checkSEO doc) <= 3
  /\ List.length (checkAccessibility doc) <= 3
  /\ List.length (checkStructure doc) <= 3
  /\ List.length (checkPerformance doc) <= 3
  /\ List.length (allIssues doc) <= 12.
Proof.
  split; [|repeat split].
  - destruct (allIssues_ranked doc) as (_ & S).
    apply sorted_NoDup in S.
    apply (NoDup_map_inv
             (fun t => match find (fun entry => (fst entry =? t)%string)
                               ruleTable with
                       | Some entry => snd entry
                       | None => 0
                       end)).
    now rewrite map_map.
  - apply (ranked_length 1 3), checkSEO_group.
  - apply (ranked_length 4 6), checkAccessibility_group.
  - apply (ranked_length 7 9), checkStructure_group.
  - apply (ranked_length 10 12), checkPerformance_group.
  - apply (ranked_length 1 12), allIssues_ranked.
Qed.

(** *** The H1 rule and the heading order *)

Lemma h1Issues_rule (doc : Document) : h1Issues doc = h1Rule (h1Count doc).
Proof.
  unfold h1Issues. rewrite checkStructure_rules.
  unfold issuesTitled; rewrite !filter_app.
  unfold h1Rule, skipRule, whenAbove. split_conditions; reflexivity.
Qed.

Lemma headingLevel_range (e : Node) (k : Z) :
  headingLevel e = Some k ->
  (1 <= k <= 6)%Z /\ (k = 1%Z <-> isElementNamed "h1" e = true).
Proof.
  destruct e as [d|d|name attrs ch]; try discriminate.
  cbn [headingLevel isElementNamed].
  destruct (name =? "h1")%string eqn:E1.
  { intros [= <-]. split; [lia | tauto]. }
  split_conditions; intros [= <-]; (split; [lia|]);
    split; intros; discriminate.
Qed.

Lemma first_level (l : list Node) (k : Z) (r : list Z) :
  levelsOf l = k :: r ->
  (1 <= k <= 6)%Z
  /\ (k = 1%Z -> 0 < List.length (filter (isElementNamed "h1") l)).
Proof.
  induction l as [|e l IH]; [discriminate|].
  cbn [levelsOf filter]. destruct (headingLevel e) as [j|] eqn:Ej.
  - intros [= -> _]. destruct (headingLevel_range e k Ej) as (Hr & H1).
    split; [exact Hr|]. intros Hk. apply H1 in Hk. rewrite Hk. simpl. lia.
  - intros H. destruct (IH H) as (Hr & H1). split; [exact Hr|].
    intros Hk. specialize (H1 Hk).
    destruct (isElementNamed "h1" e); simpl; lia.
Qed.

(** X6. A document that has headings but no [h1] gets the missing-H1 error
    and the skipped-levels warning together: its first heading is compared
    with level 0.  The other way round, a document with headings and
    without the warning starts with an [h1], so it has no missing-H1
    error. *)
Theorem missing_h1_forces_skip (doc : Document) :
  (h1Count doc = 0 -> headingLevels doc <> [] ->
     h1Issues doc = [issue_missing_h1]
     /\ skipIssues doc = [issue_skipped_levels])
  /\ (skipIssues doc = [] -> headingLevels doc <> [] ->
        hd_error (headingLevels doc) = Some 1%Z
        /\ h1Issues doc <> [issue_missing_h1]).
Proof.
  rewrite h1Issues_rule, skipIssues_rule. unfold headingLevels, h1Count, count.
  destruct (levelsOf (documentElements doc)) as [|k r] eqn:El.
  { split; intros _ H; now contradiction H. }
  destruct (first_level _ _ _ El) as (Hr & H1).
  cbn [hasSkipFrom]. split.
  - intros H0 _. rewrite H0. split; [reflexivity|].
    assert (Hk : (0 + 1 <? k)%Z = true).
    { apply Z.ltb_lt. destruct (Z.eq_dec k 1) as [Hk|Hk]; [|lia].
      specialize (H1 Hk). lia. }
    now rewrite Hk.
  - intros Hs _. destruct (0 + 1 <? k)%Z eqn:Ek; [discriminate Hs|].
    apply Z.ltb_ge in Ek. assert (Hk : k = 1%Z) by lia.
    split; [now rewrite Hk|].
    specialize (H1 Hk). unfold h1Rule.
    destruct (List.length (filter (isElementNamed "h1") (documentElements doc)))
      as [|[|n]]; [lia | discriminate | discriminate].
Qed.

Lemma missing_h1_forces_skip_witness :
  (h1Issues (headingsPage ["h2"; "h3"]) = [issue_missing_h1]
   /\ skipIssues (headingsPage ["h2"; "h3"]) = [issue_skipped_levels])
  /\ (hd_error (headingLevels nestedHeadingsPage) = Some 1%Z
      /\ h1Issues nestedHeadingsPage <> [issue_missing_h1]).
Proof.
  split.
  - apply (proj1 (missing_h1_forces_skip (headingsPage ["h2"; "h3"])));
      [reflexivity | discriminate].
  - apply (proj2 (missing_h1_forces_skip nestedHeadingsPage));
      [reflexivity | discriminate].
Defined.

(** *** An empty title *)

Lemma trimStart_blank (s : string) :
  blankString s = true -> JS.trimStart s = "".
Proof.
  induction s as [|c s IH]; [reflexivity|].
  cbn [blankString JS.trimStart]. rewrite andb_true_iff.
  intros [Hc Hs]. rewrite Hc. now apply IH.
Qed.



End MoreRules.

(* ================================================================== *)
(** ** Properties of the page controller *)

Section ClassLists.

Import app.

Lemma includes_app (l1 l2 : list string) (x : string) :
  JS.includes (l1 ++ l2) x = JS.includes l1 x || JS.includes l2 x.
Proof. unfold JS.includes. apply existsb_app. Qed.

Lemma includes_add (tokens cl : list string) (x : string) :
  JS.includes (classList_add tokens cl) x
  = JS.includes cl x || JS.includes tokens x.
Proof.
  unfold classList_add. revert cl.
  induction tokens as [|t ts IH]; intros cl; cbn [fold_left].
  - cbn. now rewrite orb_false_r.
  - rewrite IH. cbn [JS.includes existsb].
    destruct (JS.includes cl t) eqn:Et.
    + destruct (t =? x)%string eqn:Etx; [|reflexivity].
      apply String.eqb_eq in Etx. subst. fold (JS.includes cl x).
      fold (JS.includes ts x). now rewrite Et.
    + rewrite includes_app. cbn [JS.includes existsb].
      fold (JS.includes cl x). fold (JS.includes ts x).
      rewrite orb_false_r. now rewrite orb_assoc.
Qed.

Lemma includes_remove (tokens cl : list string) (x : string) :
  JS.includes (classList_remove tokens cl) x
  = JS.includes cl x && negb (JS.includes tokens x).
Proof.
  unfold classList_remove, JS.includes.
  induction cl as [|c cl IH]; [reflexivity|].
  cbn [filter existsb].
  destruct (existsb (fun y => (y =? c)%string) tokens) eqn:Ec; cbn [negb].
  - rewrite IH. destruct (c =? x)%string eqn:Ecx; [|reflexivity].
    apply String.eqb_eq in Ecx. subst. rewrite Ec. cbn [negb orb].
    now rewrite !andb_false_r.
  - cbn [existsb]. rewrite IH.
    destruct (c =? x)%string eqn:Ecx; [|reflexivity].
    apply String.eqb_eq in Ecx. subst. now rewrite Ec.
Qed.

Lemma add_present (tokens cl : list string) :
  (forall t, In t tokens -> JS.includes cl t = true) ->
  classList_add tokens cl = cl.
Proof.
  unfold classList_add. induction tokens as [|t ts IH]; intros H;
    [reflexivity|].
  cbn [fold_left]. rewrite (H t (or_introl eq_refl)).
  apply IH. intros u Hu. apply H. now right.
Qed.

Lemma includes_self (tokens : list string) (t : string) :
  In t tokens -> JS.includes tokens t = true.
Proof.
  intros H. apply existsb_exists. exists t. split; [exact H|].
  apply String.eqb_refl.
Qed.

Lemma add_add (tokens cl : list string) :
  classList_add tokens (classList_add tokens cl) = classList_add tokens cl.
Proof.
  apply add_present. intros t Ht.
  rewrite includes_add, (includes_self tokens t Ht). apply orb_true_r.
Qed.

Lemma remove_remove (tokens cl : list string) :
  classList_remove tokens (classList_remove tokens cl)
  = classList_remove tokens cl.
Proof.
  unfold classList_remove. rewrite filter_filter.
  apply filter_ext. intros c. now rewrite andb_diag.
Qed.

Lemma remove_app (tokens l1 l2 : list string) :
  classList_remove tokens (l1 ++ l2)
  = classList_remove tokens l1 ++ classList_remove tokens l2.
Proof. apply filter_app. Qed.

Lemma remove_add_disjoint (removed added cl : list string) :
  (forall t, In t added -> JS.includes removed t = false) ->
  classList_remove removed (classList_add added cl)
  = classList_add added (classList_remove removed cl).
Proof.
  unfold classList_add. revert cl.
  induction added as [|t ts IH]; intros cl H; [reflexivity|].
  cbn [fold_left]. rewrite includes_remove.
  rewrite (H t (or_introl eq_refl)). cbn [negb]. rewrite andb_true_r.
  assert (Hts : forall u, In u ts -> JS.includes removed u = false)
    by (intros u Hu; apply H; now right).
  destruct (JS.includes cl t); rewrite (IH _ Hts); [reflexivity|].
  rewrite remove_app. cbn [classList_remove filter].
  now rewrite (H t (or_introl eq_refl)).
Qed.

Lemma remove_add_same (tokens cl : list string) :
  classList_remove tokens (classList_add tokens cl)
  = classList_remove tokens cl.
Proof.
  assert (G : forall added cl,
             (forall t, In t added -> JS.includes tokens t = true) ->
             classList_remove tokens (classList_add added cl)
             = classList_remove tokens cl).
  { unfold classList_add. induction added as [|t ts IH]; intros c H;
      [reflexivity|].
    cbn [fold_left].
    assert (Hts : forall u, In u ts -> JS.includes tokens u = true)
      by (intros u Hu; apply H; now right).
    destruct (JS.includes c t); rewrite (IH _ Hts); [reflexivity|].
    rewrite remove_app. cbn [classList_remove filter].
    rewrite (H t (or_introl eq_refl)). cbn [negb]. apply app_nil_r. }
  apply G. intros t Ht. now apply includes_self.
Qed.

Lemma shown_addClass_hidden (w : Widget) :
  shown (addClass ["hidden"] w) = false.
Proof.
  unfold shown, classList_contains, addClass. cbn [classList].
  rewrite includes_add. cbn. now rewrite orb_true_r.
Qed.

Lemma shown_removeClass_hidden (w : Widget) :
  shown (removeClass ["hidden"] w) = true.
Proof.
  unfold shown, classList_contains, removeClass. cbn [classList].
  rewrite includes_remove. cbn. now rewrite andb_false_r.
Qed.

End ClassLists.

Section Timeline.

Import app.

Lemma changeFirst_texts (text : string) (children : list TimelineItem) :
  map dataset_text
    (changeFirst (fun child => (dataset_text child =? text)%string)
       completeItem children)
  = map dataset_text children.
Proof.
  induction children as [|c r IH]; [reflexivity|].
  cbn [changeFirst]. destruct (dataset_text c =? text)%string;
    cbn [map]; [reflexivity | now rewrite IH].
Qed.

Lemma itemFor_includes (text : string) (children : list TimelineItem) :
  JS.includes (map dataset_text children) text
  = match itemFor text children with Some _ => true | None => false end.
Proof.
  unfold itemFor, JS.includes.
  induction children as [|c r IH]; [reflexivity|].
  cbn [map existsb find]. destruct (dataset_text c =? text)%string;
    [reflexivity | exact IH].
Qed.

Lemma includes_In (l : list string) (x : string) :
  JS.includes l x = true <-> In x l.
Proof.
  unfold JS.includes. rewrite existsb_exists. split.
  - intros (y & Hy & E). apply String.eqb_eq in E. now subst.
  - intros H. exists x. split; [exact H | apply String.eqb_refl].
Qed.

Lemma updateTimelineItems_texts (text : string) (status : nat)
    (children : list TimelineItem) :
  map dataset_text (updateTimelineItems text status children)
  = (if JS.includes (map dataset_text children) text
     then map dataset_text children
     else map dataset_text children ++ [text]).
Proof.
  rewrite itemFor_includes. unfold updateTimelineItems.
  fold (itemFor text children).
  destruct (itemFor text children).
  - destruct (status =? 1); [apply changeFirst_texts | reflexivity].
  - now rewrite map_app.
Qed.

(** X8. The timeline holds one item per step: [updateTimeline] appends an
    item for a text that has none and never for a text that has one, so
    texts that are distinct stay distinct. *)
Theorem timeline_texts (text : string) (status : nat)
    (children : list TimelineItem) :
  map dataset_text (updateTimelineItems text status children)
  = (if JS.includes (map dataset_text children) text
     then map dataset_text children
     else map dataset_text children ++ [text])
  /\ (NoDup (map dataset_text children) ->
      NoDup (map dataset_text (updateTimelineItems text status children))).
Proof.
  split; [apply updateTimelineItems_texts|]. intros H.
  rewrite updateTimelineItems_texts.
  destruct (JS.includes (map dataset_text children) text) eqn:Ei;
    [exact H|].
  apply NoDup_app; [exact H | repeat constructor; intros [] | ].
  intros x Hx [<- | []]. apply includes_In in Hx. congruence.
Qed.

Lemma timeline_texts_witness :
  NoDup (map dataset_text
           (updateTimelineItems "Running SEO Analysis..." 0
              [createItem "Parsing HTML Structure..."])).
Proof.
  apply (proj2 (timeline_texts "Running SEO Analysis..." 0
                  [createItem "Parsing HTML Structure..."])).
  repeat constructor. intros [].
Defined.

Lemma find_none_app {A : Type} (test : A -> bool) (l r : list A) :
  find test l = None -> find test (l ++ r) = find test r.
Proof.
  induction l as [|x l IH]; [reflexivity|].
  cbn [find app]. destruct (test x); [discriminate | exact IH].
Qed.

Lemma changeFirst_none_app {A : Type} (test : A -> bool) (f : A -> A)
    (l r : list A) :
  find test l = None ->
  changeFirst test f (l ++ r) = l ++ changeFirst test f r.
Proof.
  induction l as [|x l IH]; [reflexivity|].
  cbn [find app changeFirst]. destruct (test x); [discriminate|].
  intros H. now rewrite (IH H).
Qed.

(** X9. A step of the timeline: the first call for a text appends an
    active item, whatever the status, so a call with status 1 for a step
    never started only starts it; the call with status 0 followed by the
    call with status 1 leaves the item completed, with a green label. *)
Theorem timeline_step (text : string) (children : list TimelineItem) :
  itemFor text children = None ->
  (forall status,
     updateTimelineItems text status children
     = children ++ [createItem text])
  /\ updateTimelineItems text 1 (updateTimelineItems text 0 children)
     = children ++ [completeItem (createItem text)]
  /\ className (createItem text) = ["timeline-item"; "active"]
  /\ className (completeItem (createItem text))
     = ["timeline-item"; "completed"]
  /\ spanClassList (completeItem (createItem text))
     = ["text-slate-700"; "font-medium"; "text-green-700"].
Proof.
  intros H.
  assert (F : forall status,
             updateTimelineItems text status children
             = children ++ [createItem text]).
  { intros status. unfold updateTimelineItems.
    fold (itemFor text children). now rewrite H. }
  split; [exact F|]. split; [|repeat split].
  rewrite F. unfold updateTimelineItems.
  unfold itemFor in H. rewrite (find_none_app _ _ _ H).
  cbn [find createItem dataset_text]. rewrite String.eqb_refl.
  cbn [Nat.eqb]. rewrite (changeFirst_none_app _ _ _ _ H).
  cbn [changeFirst dataset_text]. now rewrite String.eqb_refl.
Qed.

Lemma timeline_step_witness :
  updateTimelineItems "Compiling Report..." 1 []
  = [createItem "Compiling Report..."]
  /\ updateTimelineItems "Compiling Report..." 1
       (updateTimelineItems "Compiling Report..." 0 [])
     = [completeItem (createItem "Compiling Report...")].
Proof.
  split.
  - apply (proj1 (timeline_step "Compiling Report..." [] eq_refl) 1).
  - apply (proj1 (proj2 (timeline_step "Compiling Report..." [] eq_refl))).
Defined.

Lemma completeItem_twice (item : TimelineItem) :
  completeItem (completeItem item) = completeItem item.
Proof.
  unfold completeItem. cbn [dataset_text className spanClassList spanText].
  f_equal.
  - rewrite (remove_add_disjoint ["active"] ["completed"]).
    + now rewrite remove_remove, add_add.
    + intros t [<- | []]. reflexivity.
  - apply add_add.
Qed.

Lemma changeFirst_twice {A : Type} (test : A -> bool) (f : A -> A)
    (l : list A) :
  (forall x, test x = true -> test (f x) = true) ->
  (forall x, f (f x) = f x) ->
  changeFirst test f (changeFirst test f l) = changeFirst test f l.
Proof.
  intros Ht Hf. induction l as [|x l IH]; [reflexivity|].
  cbn [changeFirst]. destruct (test x) eqn:Ex; cbn [changeFirst].
  - now rewrite (Ht x Ex), Hf.
  - now rewrite Ex, IH.
Qed.

Lemma itemFor_changeFirst (text : string) (children : list TimelineItem) :
  itemFor text
    (changeFirst (fun child => (dataset_text child =? text)%string)
       completeItem children)
  = option_map completeItem (itemFor text children).
Proof.
  unfold itemFor. induction children as [|c r IH]; [reflexivity|].
  cbn [changeFirst find].
  destruct (dataset_text c =? text)%string eqn:Ec; cbn [find].
  - cbn [completeItem dataset_text]. now rewrite Ec.
  - now rewrite Ec, IH.
Qed.

(** X10. A step that has its item: a call with a status other than 1
    changes nothing; a call with status 1 completes the item, and a second
    one changes nothing more.  The number of items stays the same. *)
Theorem timeline_complete (text : string) (children : list TimelineItem)
    (item : TimelineItem) :
  itemFor text children = Some item ->
  (forall status, status <> 1 ->
     updateTimelineItems text status children = children)
  /\ itemFor text (updateTimelineItems text 1 children)
     = Some (completeItem item)
  /\ updateTimelineItems text 1 (updateTimelineItems text 1 children)
     = updateTimelineItems text 1 children
  /\ (forall status,
        List.length (updateTimelineItems text status children)
        = List.length children).
Proof.
  intros H.
  assert (E1 : updateTimelineItems text 1 children
               = changeFirst (fun child => (dataset_text child =? text)%string)
                   completeItem children).
  { unfold updateTimelineItems. fold (itemFor text children).
    now rewrite H. }
  split; [|split; [|split]].
  - intros status Hs. unfold updateTimelineItems.
    fold (itemFor text children). rewrite H.
    apply Nat.eqb_neq in Hs. now rewrite Hs.
  - rewrite E1, itemFor_changeFirst. now rewrite H.
  - rewrite E1. unfold updateTimelineItems at 1.
    fold (itemFor text (changeFirst
                          (fun child => (dataset_text child =? text)%string)
                          completeItem children)).
    rewrite itemFor_changeFirst, H. cbn [option_map Nat.eqb].
    apply changeFirst_twice; [intros x Hx; exact Hx|].
    apply completeItem_twice.
  - intros status.
    rewrite <- (length_map dataset_text (updateTimelineItems _ _ _)).
    rewrite updateTimelineItems_texts, itemFor_includes, H.
    apply length_map.
Qed.

Lemma timeline_complete_witness :
  updateTimelineItems "Running SEO Analysis..." 0
    [createItem "Running SEO Analysis..."]
  = [createItem "Running SEO Analysis..."]
  /\ updateTimelineItems "Running SEO Analysis..." 1
       (updateTimelineItems "Running SEO Analysis..." 1
          [createItem "Running SEO Analysis..."])
     = updateTimelineItems "Running SEO Analysis..." 1
         [createItem "Running SEO Analysis..."].
Proof.
  split.
  - apply (proj1 (timeline_complete "Running SEO Analysis..."
                    [createItem "Running SEO Analysis..."]
                    (createItem "Running SEO Analysis...") eq_refl) 0).
    discriminate.
  - apply (proj1 (proj2 (proj2
             (timeline_complete "Running SEO Analysis..."
                [createItem "Running SEO Analysis..."]
                (createItem "Running SEO Analysis...") eq_refl)))).
Defined.

(** X11. A call of [updateTimeline] for one step leaves the items of the
    other steps as they are. *)
Theorem timeline_other_steps (text text' : string) (status : nat)
    (children : list TimelineItem) :
  text' <> text ->
  itemFor text' (updateTimelineItems text status children)
  = itemFor text' children.
Proof.
  intros Hne. apply String.eqb_neq in Hne.
  unfold updateTimelineItems. fold (itemFor text children).
  destruct (itemFor text children) as [item|] eqn:Ei.
  - destruct (status =? 1); [|reflexivity].
    clear Ei. unfold itemFor.
    induction children as [|c r IH]; [reflexivity|].
    cbn [changeFirst find].
    destruct (dataset_text c =? text)%string eqn:Ec; cbn [find].
    + cbn [completeItem dataset_text].
      apply String.eqb_eq in Ec. rewrite Ec.
      rewrite String.eqb_sym. now rewrite Hne.
    + now rewrite IH.
  - unfold itemFor. clear Ei.
    induction children as [|c r IH].
    + cbn [app find createItem dataset_text].
      rewrite String.eqb_sym. now rewrite Hne.
    + cbn [app find]. now rewrite IH.
Qed.

Lemma timeline_other_steps_witness :
  itemFor "Parsing HTML Structure..."
    (updateTimelineItems "Running SEO Analysis..." 1
       [createItem "Parsing HTML Structure...";
        createItem "Running SEO Analysis..."])
  = Some (createItem "Parsing HTML Structure...").
Proof.
  apply (timeline_other_steps "Running SEO Analysis..."
           "Parsing HTML Structure..." 1
           [createItem "Parsing HTML Structure...";
            createItem "Running SEO Analysis..."]).
  discriminate.
Defined.

End Timeline.

Section Report.

Import DOM analyzer Rules Views app.

Lemma renderResults_eq (issues : list Issue) (p : Page) :
  renderResults issues p
  = mkPage (urlInput p) (fetchBtn p) (htmlInput p)
      (removeClass ["opacity-75"; "cursor-not-allowed"]
         (setDisabled false (runBtn p)))
      (fetchError p) (resultsPlaceholder p)
      (addClass ["hidden"] (processingView p))
      (removeClass ["hidden"] (resultsView p))
      (timeline p) (report issues) false (alerts p).
Proof.
  unfold renderResults, report, sectionOf, ofCategory.
  destruct (List.length issues =? 0); [reflexivity|].
  cbn [categories fold_left flat_map].
  destruct (0 <? List.length
                   (filter (fun i => category_eqb (category i) SEO) issues));
  destruct (0 <? List.length
                   (filter (fun i => category_eqb (category i) Accessibility)
                      issues));
  destruct (0 <? List.length
                   (filter (fun i => category_eqb (category i) Structure)
                      issues));
  destruct (0 <? List.length
                   (filter (fun i => category_eqb (category i) Performance)
                      issues));
  reflexivity.
Qed.

Lemma issuesContainer_render (issues : list Issue) (p : Page) :
  issuesContainer (renderResults issues p) = report issues.
Proof. now rewrite renderResults_eq. Qed.

Lemma category_eqb_refl (c : Category) : category_eqb c c = true.
Proof. destruct c; reflexivity. Qed.

Lemma category_eqb_eq (a b : Category) : category_eqb a b = true <-> a = b.
Proof. destruct a, b; split; (reflexivity || discriminate). Qed.

Lemma In_categories (c : Category) : In c categories.
Proof. destruct c; cbn; tauto. Qed.

(** X12. The report: without issues the container holds the "Amazing Job!"
    panel and no section; with issues it holds no panel and at least one
    section.  What the container held before is gone. *)
Theorem report_panel_or_sections (issues : list Issue) (p : Page) :
  (issues = [] ->
     issuesContainer (renderResults issues p) = mkContainer true [])
  /\ (issues <> [] ->
        celebration (issuesContainer (renderResults issues p)) = false
        /\ sections (issuesContainer (renderResults issues p)) <> []).
Proof.
  rewrite issuesContainer_render. unfold report. split.
  - intros ->. reflexivity.
  - intros Hne. destruct issues as [|i l]; [now contradiction Hne|].
    cbn [List.length Nat.eqb celebration sections].
    split; [reflexivity|]. intros H.
    assert (Hi : In {| sectionCategory := category i;
                       sectionCount :=
                         List.length (ofCategory (category i) (i :: l));
                       sectionCards :=
                         map renderCard (ofCategory (category i) (i :: l)) |}
                    (flat_map (fun cat => sectionOf cat (i :: l)) categories)).
    { apply in_flat_map. exists (category i).
      split; [apply In_categories|].
      unfold sectionOf, ofCategory. cbn [filter].
      rewrite category_eqb_refl. cbn [List.length Nat.ltb Nat.leb].
      now left. }
    rewrite H in Hi. exact Hi.
Qed.

Lemma report_panel_or_sections_witness :
  issuesContainer (renderResults [] freshPage) = mkContainer true []
  /\ celebration
       (issuesContainer
          (renderResults (allIssues Samples.minimalDocument) freshPage))
     = false.
Proof.
  split.
  - apply (proj1 (report_panel_or_sections [] freshPage)). reflexivity.
  - apply (proj2 (report_panel_or_sections
                    (allIssues Samples.minimalDocument) freshPage)).
    discriminate.
Defined.

Lemma cards_sectionOf (cat : Category) (issues : list Issue) :
  flat_map sectionCards (sectionOf cat issues)
  = map renderCard (ofCategory cat issues).
Proof.
  unfold sectionOf. destruct (ofCategory cat issues) as [|i l];
    [reflexivity|].
  cbn [List.length Nat.ltb Nat.leb flat_map sectionCards].
  apply app_nil_r.
Qed.

Lemma allCards_report (issues : list Issue) :
  allCards (report issues)
  = map renderCard
      (ofCategory SEO issues ++ ofCategory Accessibility issues
       ++ ofCategory Structure issues ++ ofCategory Performance issues).
Proof.
  unfold report, allCards. destruct issues as [|i l]; [reflexivity|].
  cbn [List.length Nat.eqb sections categories flat_map].
  rewrite app_nil_r, !flat_map_app, !cards_sectionOf.
  now rewrite !map_app.
Qed.

Lemma categories_partition (issues : list Issue) :
  Permutation issues
    (ofCategory SEO issues ++ ofCategory Accessibility issues
     ++ ofCategory Structure issues ++ ofCategory Performance issues).
Proof.
  unfold ofCategory. induction issues as [|i l IH]; [constructor|].
  cbn [filter]. destruct (category i); cbn [category_eqb app].
  - now apply perm_skip.
  - now apply Permutation_cons_app.
  - rewrite app_assoc. apply Permutation_cons_app.
    now rewrite <- app_assoc.
  - rewrite !app_assoc. apply Permutation_cons_app.
    now rewrite <- !app_assoc.
Qed.

(** X13. Every issue gets one card: the cards of the report are the cards
    of the SEO issues, then of the Accessibility, Structure and
    Performance issues, each run in the order of the list; together they
    are the cards of the list, rearranged. *)
Theorem every_issue_one_card (issues : list Issue) (p : Page) :
  allCards (issuesContainer (renderResults issues p))
  = map renderCard
      (ofCategory SEO issues ++ ofCategory Accessibility issues
       ++ ofCategory Structure issues ++ ofCategory Performance issues)
  /\ Permutation (map renderCard issues)
       (allCards (issuesContainer (renderResults issues p)))
  /\ List.length (allCards (issuesContainer (renderResults issues p)))
     = List.length issues.
Proof.
  rewrite issuesContainer_render, allCards_report.
  split; [reflexivity|]. split.
  - apply Permutation_map, categories_partition.
  - rewrite length_map. symmetry.
    apply Permutation_length, categories_partition.
Qed.

(** X14. The sections of the report: a section is never empty, its heading
    shows the number of its cards, its cards are those of the issues of its
    category, and the sections come in the order SEO, Accessibility,
    Structure, Performance, one per category at most. *)
Theorem sections_well_formed (issues : list Issue) (p : Page) :
  Forall
    (fun s =>
       0 < sectionCount s
       /\ sectionCount s = List.length (sectionCards s)
       /\ sectionCards s
          = map renderCard (ofCategory (sectionCategory s) issues))
    (sections (issuesContainer (renderResults issues p)))
  /\ StronglySorted lt
       (map (fun s => categoryRank (sectionCategory s))
          (sections (issuesContainer (renderResults issues p)))).
Proof.
  rewrite issuesContainer_render. unfold report.
  destruct (List.length issues =? 0); [split; constructor|].
  cbn [sections categories flat_map]. unfold sectionOf.
  destruct (0 <? List.length (ofCategory SEO issues)) eqn:E1;
  destruct (0 <? List.length (ofCategory Accessibility issues)) eqn:E2;
  destruct (0 <? List.length (ofCategory Structure issues)) eqn:E3;
  destruct (0 <? List.length (ofCategory Performance issues)) eqn:E4;
  cbn [app map sectionCategory categoryRank];
  (split;
   [ repeat (constructor;
             [cbn [sectionCount sectionCards sectionCategory];
              rewrite ?length_map;
              repeat split; try reflexivity; now apply Nat.ltb_lt|])
   | repeat (constructor; [|repeat (constructor; try lia)]) ];
   constructor).
Qed.

Lemma ofCategory_group (c cat : Category) (l : list Issue) :
  Forall (fun i => category i = c) l ->
  ofCategory cat l = if category_eqb c cat then l else [].
Proof.
  unfold ofCategory. induction 1 as [|i l Hi _ IH].
  - now destruct (category_eqb c cat).
  - cbn [filter]. rewrite Hi, IH. now destruct (category_eqb c cat).
Qed.

Lemma ofCategory_allIssues (doc : Document) :
  ofCategory SEO (allIssues doc) = checkSEO doc
  /\ ofCategory Accessibility (allIssues doc) = checkAccessibility doc
  /\ ofCategory Structure (allIssues doc) = checkStructure doc
  /\ ofCategory Performance (allIssues doc) = checkPerformance doc.
Proof.
  destruct (checkSEO_group doc) as (C1 & _).
  destruct (checkAccessibility_group doc) as (C2 & _).
  destruct (checkStructure_group doc) as (C3 & _).
  destruct (checkPerformance_group doc) as (C4 & _).
  unfold allIssues.
  repeat split; unfold ofCategory; rewrite !filter_app;
    fold (ofCategory SEO (checkSEO doc));
    fold (ofCategory Accessibility (checkSEO doc));
    fold (ofCategory Structure (checkSEO doc));
    fold (ofCategory Performance (checkSEO doc));
    repeat match goal with
      | |- context [filter ?f ?l] =>
          match f with
          | (fun i => category_eqb (category i) ?cat) =>
              change (filter f l) with (ofCategory cat l)
          end
      end;
    rewrite ?(ofCategory_group _ _ _ C1), ?(ofCategory_group _ _ _ C2),
      ?(ofCategory_group _ _ _ C3), ?(ofCategory_group _ _ _ C4);
    cbn [category_eqb app]; rewrite ?app_nil_r; reflexivity.
Qed.

(** X15. The report of an evaluation: the cards of what the analyzer
    returns appear in the very order of the result; grouping by category
    moves nothing, and there are at most twelve cards. *)
Theorem report_of_evaluation (doc : Document) (p : Page) :
  allCards (issuesContainer (renderResults (allIssues doc) p))
  = map renderCard (allIssues doc)
  /\ List.length
       (allCards (issuesContainer (renderResults (allIssues doc) p))) <= 12.
Proof.
  rewrite issuesContainer_render, allCards_report.
  destruct (ofCategory_allIssues doc) as (-> & -> & -> & ->).
  split; [reflexivity|].
  rewrite length_map. apply (ranked_length 1 12), allIssues_ranked.
Qed.

Lemma widget_render_twice (w : Widget) :
  removeClass ["opacity-75"; "cursor-not-allowed"]
    (setDisabled false
       (removeClass ["opacity-75"; "cursor-not-allowed"]
          (setDisabled false w)))
  = removeClass ["opacity-75"; "cursor-not-allowed"] (setDisabled false w).
Proof.
  unfold removeClass, setDisabled.
  cbn [classList textContent value disabled]. now rewrite remove_remove.
Qed.

(** X16. A report replaces the one before: rendering a second list of
    issues leaves the page as if only the second list had been rendered;
    in particular rendering the same list twice changes nothing. *)
Theorem render_replaces (issues issues' : list Issue) (p : Page) :
  renderResults issues' (renderResults issues p) = renderResults issues' p.
Proof.
  rewrite !renderResults_eq.
  cbn [urlInput fetchBtn htmlInput runBtn fetchError resultsPlaceholder
       processingView resultsView timeline alerts].
  rewrite widget_render_twice. f_equal.
  - unfold addClass. cbn [classList textContent value disabled].
    now rewrite add_add.
  - unfold removeClass. cbn [classList textContent value disabled].
    now rewrite remove_remove.
Qed.

(** X17. The views: after [startProcessing] only the processing view is
    shown, the run button is disabled and the timeline is empty; a
    [renderResults] that follows shows only the results and enables the
    button again; [resetView] shows only the placeholder and enables the
    button, and leaves [isProcessing] as it is. *)
Theorem one_view_shown (issues : list Issue) (p : Page) :
  onlyShown ProcessingView (startProcessing p)
  /\ disabled (runBtn (startProcessing p)) = true
  /\ timeline (startProcessing p) = []
  /\ isProcessing (startProcessing p) = true
  /\ onlyShown ResultsView (renderResults issues (startProcessing p))
  /\ disabled (runBtn (renderResults issues (startProcessing p))) = false
  /\ isProcessing (renderResults issues (startProcessing p)) = false
  /\ onlyShown PlaceholderView (resetView p)
  /\ disabled (runBtn (resetView p)) = false
  /\ isProcessing (resetView p) = isProcessing p.
Proof.
  rewrite renderResults_eq. unfold onlyShown, startProcessing, resetView.
  cbn [resultsPlaceholder processingView resultsView runBtn timeline
       isProcessing with_resultsPlaceholder with_processingView
       with_resultsView with_runBtn with_timeline set_isProcessing].
  rewrite !shown_addClass_hidden, !shown_removeClass_hidden.
  repeat split.
Qed.

End Report.

Section Audit.

Import DOM analyzer Rules Views MoreSamples app.

Variable parseHtml : string -> option Document.

Lemma trim_blank (s : string) : blankString s = true -> JS.trim s = "".
Proof. intros H. unfold JS.trim. now rewrite (trimStart_blank s H). Qed.

(** X18. An audit without input: when the HTML field is empty or holds
    white space only, [runAudit] shows the alert that asks for HTML and
    touches nothing else; no processing starts. *)
Theorem audit_blank_input (p : Page) :
  blankString (value (htmlInput p)) = true ->
  runAudit parseHtml p = alert "Please provide some HTML to analyze." p.
Proof.
  intros H. unfold runAudit. now rewrite (trim_blank _ H).
Qed.

Lemma runAudit_failed (p : Page) :
  JS.trim (value (htmlInput p)) <> "" ->
  parseHtml (JS.trim (value (htmlInput p))) = None ->
  runAudit parseHtml p
  = resetView
      (alert "Failed to parse HTML."
         (updateTimeline "Parsing HTML Structure..." 0 (startProcessing p))).
Proof.
  intros Hne Hp. unfold runAudit.
  apply String.eqb_neq in Hne. now rewrite Hne, Hp.
Qed.

(** X19. An audit whose parse throws: [runAudit] shows the alert "Failed
    to parse HTML.", brings the placeholder back as the only view shown and
    enables the run button; the timeline keeps its one item, still active,
    the report is not touched, and [isProcessing] stays set. *)
Theorem audit_parse_failure (p : Page) :
  JS.trim (value (htmlInput p)) <> "" ->
  parseHtml (JS.trim (value (htmlInput p))) = None ->
  alerts (runAudit parseHtml p) = alerts p ++ ["Failed to parse HTML."]
  /\ onlyShown PlaceholderView (runAudit parseHtml p)
  /\ disabled (runBtn (runAudit parseHtml p)) = false
  /\ timelineSummary (runAudit parseHtml p)
     = [("Parsing HTML Structure...", ["timeline-item"; "active"])]
  /\ issuesContainer (runAudit parseHtml p) = issuesContainer p
  /\ isProcessing (runAudit parseHtml p) = true.
Proof.
  intros Hne Hp. rewrite (runAudit_failed p Hne Hp).
  unfold onlyShown, resetView, alert, updateTimeline, startProcessing.
  cbn [resultsPlaceholder processingView resultsView runBtn timeline
       isProcessing alerts issuesContainer with_resultsPlaceholder
       with_processingView with_resultsView with_runBtn with_timeline
       set_isProcessing].
  rewrite !shown_addClass_hidden, !shown_removeClass_hidden.
  repeat split.
Qed.

Lemma runAudit_done (p : Page) (doc : Document) :
  JS.trim (value (htmlInput p)) <> "" ->
  parseHtml (JS.trim (value (htmlInput p))) = Some doc ->
  runAudit parseHtml p
  = mkPage (urlInput p) (fetchBtn p) (htmlInput p)
      (removeClass ["opacity-75"; "cursor-not-allowed"]
         (setDisabled false
            (addClass ["opacity-75"; "cursor-not-allowed"]
               (setDisabled true (runBtn p)))))
      (fetchError p)
      (addClass ["hidden"] (resultsPlaceholder p))
      (addClass ["hidden"] (removeClass ["hidden"] (processingView p)))
      (removeClass ["hidden"] (addClass ["hidden"] (resultsView p)))
      finishedTimeline (report (allIssues doc)) false (alerts p).
Proof.
  intros Hne Hp. unfold runAudit.
  apply String.eqb_neq in Hne. rewrite Hne, Hp.
  fold (allIssues doc). rewrite renderResults_eq. reflexivity.
Qed.

(** X20. An audit that runs through: the report is the report of what the
    analyzer returns for the parsed input, with the cards in the order of
    the result; only the results are shown, the run button is enabled, no
    alert is added, and the timeline holds the six steps, the first five
    completed and "Compiling Report..." still active. *)
Theorem audit_success (p : Page) (doc : Document) :
  JS.trim (value (htmlInput p)) <> "" ->
  parseHtml (JS.trim (value (htmlInput p))) = Some doc ->
  issuesContainer (runAudit parseHtml p) = report (allIssues doc)
  /\ allCards (issuesContainer (runAudit parseHtml p))
     = map renderCard (allIssues doc)
  /\ onlyShown ResultsView (runAudit parseHtml p)
  /\ disabled (runBtn (runAudit parseHtml p)) = false
  /\ isProcessing (runAudit parseHtml p) = false
  /\ alerts (runAudit parseHtml p) = alerts p
  /\ timelineSummary (runAudit parseHtml p)
     = [("Parsing HTML Structure...", ["timeline-item"; "completed"]);
        ("Running SEO Analysis...", ["timeline-item"; "completed"]);
        ("Checking Accessibility...", ["timeline-item"; "completed"]);
        ("Reviewing HTML Structure...", ["timeline-item"; "completed"]);
        ("Scanning for Performance...", ["timeline-item"; "completed"]);
        ("Compiling Report...", ["timeline-item"; "active"])].
Proof.
  intros Hne Hp. rewrite (runAudit_done p doc Hne Hp).
  unfold onlyShown.
  cbn [resultsPlaceholder processingView resultsView runBtn timeline
       isProcessing alerts issuesContainer].
  rewrite !shown_addClass_hidden, !shown_removeClass_hidden.
  split; [reflexivity|]. split; [|repeat split].
  rewrite allCards_report.
  destruct (ofCategory_allIssues doc) as (-> & -> & -> & ->).
  reflexivity.
Qed.

Lemma classes_cycle (tokens cl : list string) :
  classList_remove tokens
    (classList_add tokens
       (classList_remove tokens (classList_add tokens cl)))
  = classList_remove tokens (classList_add tokens cl).
Proof. now rewrite remove_add_same, remove_remove. Qed.

Lemma classes_cycle' (tokens cl : list string) :
  classList_add tokens
    (classList_remove tokens
       (classList_add tokens (classList_remove tokens cl)))
  = classList_add tokens (classList_remove tokens cl).
Proof. now rewrite remove_add_same, remove_remove. Qed.

(** X21. An audit can be run again: when it runs through, running it a
    second time on the page it left gives that same page. *)
Theorem audit_again (p : Page) (doc : Document) :
  JS.trim (value (htmlInput p)) <> "" ->
  parseHtml (JS.trim (value (htmlInput p))) = Some doc ->
  runAudit parseHtml (runAudit parseHtml p) = runAudit parseHtml p.
Proof.
  intros Hne Hp. rewrite (runAudit_done p doc Hne Hp).
  rewrite (runAudit_done _ doc); [| exact Hne | exact Hp].
  cbn [urlInput fetchBtn htmlInput runBtn fetchError resultsPlaceholder
       processingView resultsView timeline alerts].
  unfold addClass, removeClass, setDisabled.
  cbn [classList textContent value disabled].
  now rewrite !classes_cycle, classes_cycle', add_add.
Qed.

End Audit.

Section AuditSamples.

Import DOM analyzer Rules Views MoreSamples app.

Lemma audit_blank_input_witness :
  runAudit sampleParser (typeHtml "   " freshPage)
  = alert "Please provide some HTML to analyze." (typeHtml "   " freshPage).
Proof.
  apply (audit_blank_input sampleParser (typeHtml "   " freshPage)).
  reflexivity.
Defined.

Lemma audit_parse_failure_witness :
  alerts (runAudit sampleParser (typeHtml "<p>" freshPage))
  = ["Failed to parse HTML."].
Proof.
  apply (proj1 (audit_parse_failure sampleParser (typeHtml "<p>" freshPage)
                  ltac:(discriminate) eq_refl)).
Defined.

Lemma audit_success_witness :
  allCards
    (issuesContainer
       (runAudit sampleParser
          (typeHtml " <h2>News</h2><img src=a.png> " freshPage)))
  = map renderCard (allIssues Samples.busyPage).
Proof.
  apply (proj1 (proj2
           (audit_success sampleParser
              (typeHtml " <h2>News</h2><img src=a.png> " freshPage)
              Samples.busyPage ltac:(discriminate) eq_refl))).
Defined.

Lemma audit_again_witness :
  runAudit sampleParser
    (runAudit sampleParser
       (typeHtml "<h2>News</h2><img src=a.png>" freshPage))
  = runAudit sampleParser
      (typeHtml "<h2>News</h2><img src=a.png>" freshPage).
Proof.
  apply (audit_again sampleParser
           (typeHtml "<h2>News</h2><img src=a.png>" freshPage)
           Samples.busyPage ltac:(discriminate) eq_refl).
Defined.

End AuditSamples.

Section Fetch.

Import DOM analyzer Rules Views MoreSamples app.

Variable fetch : string -> FetchOutcome.

Lemma handleFetchUrl_eq (p : Page) :
  JS.trim (value (urlInput p)) <> "" ->
  handleFetchUrl fetch p
  = match fetch (JS.trim (value (urlInput p))) with
    | Response true (Some text) =>
        mkPage (urlInput p)
          (setTextContent "Fetch HTML"
             (setDisabled false
                (setTextContent "Fetching..."
                   (setDisabled true (fetchBtn p)))))
          (setValue text (htmlInput p)) (runBtn p)
          (addClass ["hidden"] (fetchError p))
          (resultsPlaceholder p) (processingView p) (resultsView p)
          (timeline p) (issuesContainer p) (isProcessing p) (alerts p)
    | _ =>
        mkPage (urlInput p)
          (setTextContent "Fetch HTML"
             (setDisabled false
                (setTextContent "Fetching..."
                   (setDisabled true (fetchBtn p)))))
          (htmlInput p) (runBtn p)
          (removeClass ["hidden"]
             (setTextContent fetchFailedText
                (addClass ["hidden"] (fetchError p))))
          (resultsPlaceholder p) (processingView p) (resultsView p)
          (timeline p) (issuesContainer p) (isProcessing p) (alerts p)
    end.
Proof.
  intros Hne. unfold handleFetchUrl.
  apply String.eqb_neq in Hne. rewrite Hne.
  destruct (fetch (JS.trim (value (urlInput p)))) as [|[|] [text|]];
    reflexivity.
Qed.


(** X23. A fetch that fails: when the request is rejected, the response is
    not ok, or its body cannot be read, [handleFetchUrl] leaves the HTML
    field as it is, shows the error line with its fixed text and gives the
    button back, enabled and labelled "Fetch HTML". *)
Theorem fetch_failure (p : Page) :
  JS.trim (value (urlInput p)) <> "" ->
  (forall text,
     fetch (JS.trim (value (urlInput p))) <> Response true (Some text)) ->
  htmlInput (handleFetchUrl fetch p) = htmlInput p
  /\ shown (fetchError (handleFetchUrl fetch p)) = true
  /\ textContent (fetchError (handleFetchUrl fetch p))
     = "Could not fetch URL (likely CORS). Please paste HTML manually."
  /\ disabled (fetchBtn (handleFetchUrl fetch p)) = false
  /\ textContent (fetchBtn (handleFetchUrl fetch p)) = "Fetch HTML".
Proof.
  intros Hne Hf. rewrite (handleFetchUrl_eq p Hne).
  destruct (fetch (JS.trim (value (urlInput p)))) as [|[|] [text|]];
    try (now contradiction (Hf text));
    cbn [htmlInput fetchError fetchBtn];
    rewrite shown_removeClass_hidden; repeat split.
Qed.

(** X24. A fetch stays in its corner: whatever the outcome, the address
    field, the run button, the three views, the timeline, the report, the
    [isProcessing] flag and the alerts are as before; with an address that
    is empty or white space only, the whole page is as before. *)
Theorem fetch_frame (p : Page) :
  (urlInput (handleFetchUrl fetch p) = urlInput p
   /\ runBtn (handleFetchUrl fetch p) = runBtn p
   /\ resultsPlaceholder (handleFetchUrl fetch p) = resultsPlaceholder p
   /\ processingView (handleFetchUrl fetch p) = processingView p
   /\ resultsView (handleFetchUrl fetch p) = resultsView p
   /\ timeline (handleFetchUrl fetch p) = timeline p
   /\ issuesContainer (handleFetchUrl fetch p) = issuesContainer p
   /\ isProcessing (handleFetchUrl fetch p) = isProcessing p
   /\ alerts (handleFetchUrl fetch p) = alerts p)
  /\ (blankString (value (urlInput p)) = true ->
      handleFetchUrl fetch p = p).
Proof.
  split.
  - destruct (String.eqb_spec (JS.trim (value (urlInput p))) "") as [E|Hne].
    + unfold handleFetchUrl. rewrite E. repeat split.
    + rewrite (handleFetchUrl_eq p Hne).
      destruct (fetch (JS.trim (value (urlInput p)))) as [|[|] [text|]];
        repeat split.
  - intros H. unfold handleFetchUrl. now rewrite (trim_blank _ H).
Qed.

Variable parseHtml : string -> option Document.


End Fetch.

Section FetchSamples.

Import DOM analyzer Rules Views MoreSamples app.


Lemma fetch_failure_witness :
  shown (fetchError
           (handleFetchUrl sampleFetch
              (typeUrl "https://example.org/missing" freshPage))) = true
  /\ shown (fetchError
              (handleFetchUrl sampleFetch
                 (typeUrl "https://example.net/" freshPage))) = true.
Proof.
  split.
  - apply (proj1 (proj2
             (fetch_failure sampleFetch
                (typeUrl "https://example.org/missing" freshPage)
                ltac:(discriminate) ltac:(discriminate)))).
  - apply (proj1 (proj2
             (fetch_failure sampleFetch
                (typeUrl "https://example.net/" freshPage)
                ltac:(discriminate) ltac:(discriminate)))).
Defined.

Lemma fetch_frame_witness :
  handleFetchUrl sampleFetch (typeUrl "  " freshPage)
  = typeUrl "  " freshPage.
Proof.
  apply (proj2 (fetch_frame sampleFetch (typeUrl "  " freshPage))).
  reflexivity.
Defined.


End FetchSamples.

Section Cards.

Import analyzer app.



End Cards.
